(** * Task-manager seeding scripts: a shallow embedding

    The development follows [task_1/seed.py] and
    [task_1/db_create_tables.py].  The Python code is embedded as Rocq
    functions in a state-and-exception monad over a [World] that holds
    everything the scripts can observe or change: the process environment,
    the wall clock, the PostgreSQL server and the session opened on it, the
    Faker and [random] generators and the logging output.

    What the scripts do not decide themselves is read from an [Oracle]: how
    long a connection attempt takes and whether it fails, whether a round
    trip to the server fails and whether the link is lost with it, and what
    the generators produce at each call.  The properties hold for every oracle, or say which oracles they
    are about.

    Strings are [String.string] values holding ASCII text.  Time is counted
    in milliseconds, as an integer. *)

From Stdlib Require Import ZArith List String Ascii Bool Lia Permutation.
From stdpp Require Import base option list gmap strings.
From Equations Require Import Equations.

Local Open Scope Z_scope.
Local Open Scope string_scope.

(** ** Python exceptions *)

(** The exception classes the two scripts raise or receive.  All of them
    derive from [Exception], so [except Exception] catches every one. *)
Inductive Exception : Type :=
| ValueError (msg : string)
| EnvironmentError (msg : string)          (* alias of OSError *)
| ConnectionError (msg : string)
| KeyError (key : string)
| IndexError (msg : string)
| UniquenessException (msg : string)       (* faker.exceptions *)
| OperationalError (msg : string)          (* psycopg2: server unreachable, lost link *)
| InterfaceError (msg : string)            (* psycopg2: use of a closed connection *)
| ProgrammingError (msg : string)          (* psycopg2: undefined table *)
| IntegrityError (msg : string)            (* psycopg2: violated constraint *)
| DataError (msg : string)                 (* psycopg2: value too long *)
| InternalError (msg : string).            (* psycopg2: transaction is aborted *)

(** [str(exc)] *)
Definition str_exc (e : Exception) : string :=
  match e with
  | ValueError m | EnvironmentError m | ConnectionError m | IndexError m
  | UniquenessException m | OperationalError m | InterfaceError m
  | ProgrammingError m | IntegrityError m | DataError m | InternalError m => m
  | KeyError k => "'" ++ k ++ "'"
  end.

(** [f"{x}"] for an [Optional[Exception]] *)
Definition str_opt_exc (e : option Exception) : string :=
  match e with
  | None => "None"
  | Some e => str_exc e
  end.

(** ** Python string methods used by the scripts *)
Module PyStr.

Definition is_digit (c : ascii) : bool :=
  let n := nat_of_ascii c in (48 <=? n)%nat && (n <=? 57)%nat.

Definition is_upper (c : ascii) : bool :=
  let n := nat_of_ascii c in (65 <=? n)%nat && (n <=? 90)%nat.

Definition is_lower (c : ascii) : bool :=
  let n := nat_of_ascii c in (97 <=? n)%nat && (n <=? 122)%nat.

(** [c.isascii() and c.isalpha()] *)
Definition is_alpha (c : ascii) : bool := is_upper c || is_lower c.

(** The ASCII characters [str.strip()] treats as white space. *)
Definition is_space (c : ascii) : bool :=
  let n := nat_of_ascii c in
  ((9 <=? n)%nat && (n <=? 13)%nat) || ((28 <=? n)%nat && (n <=? 32)%nat).

(** The characters [int()] skips around the literal of an ASCII string:
    those of C's [isspace], which leave out the separators 0x1c to 0x1f. *)
Definition is_c_space (c : ascii) : bool :=
  let n := nat_of_ascii c in
  ((9 <=? n)%nat && (n <=? 13)%nat) || (n =? 32)%nat.

Definition lower_char (c : ascii) : ascii :=
  if is_upper c then ascii_of_nat (nat_of_ascii c + 32) else c.

(** [s.lower()] *)
Fixpoint lower (s : string) : string :=
  match s with
  | EmptyString => EmptyString
  | String c r => String (lower_char c) (lower r)
  end.

(** [all(p(c) for c in s)] *)
Fixpoint all (p : ascii -> bool) (s : string) : bool :=
  match s with
  | EmptyString => true
  | String c r => p c && all p r
  end.

(** [c in s] *)
Fixpoint contains (c : ascii) (s : string) : bool :=
  match s with
  | EmptyString => false
  | String a r => Ascii.eqb a c || contains c r
  end.

(** [s.replace(c, empty)] *)
Fixpoint remove (c : ascii) (s : string) : string :=
  match s with
  | EmptyString => EmptyString
  | String a r => if Ascii.eqb a c then remove c r else String a (remove c r)
  end.

(** [s.lstrip(chars)], the characters given as a predicate *)
Fixpoint lstrip (p : ascii -> bool) (s : string) : string :=
  match s with
  | EmptyString => EmptyString
  | String a r => if p a then lstrip p r else s
  end.

Fixpoint rev_onto (s acc : string) : string :=
  match s with
  | EmptyString => acc
  | String a r => rev_onto r (String a acc)
  end.

Definition rev (s : string) : string := rev_onto s EmptyString.

(** [s.rstrip(chars)] *)
Definition rstrip (p : ascii -> bool) (s : string) : string :=
  rev (lstrip p (rev s)).

(** [s.strip()] *)
Definition strip (s : string) : string := rstrip is_space (lstrip is_space s).

(** [s.partition(c)]: the part before the first [c], whether [c] was
    found (Python returns the separator, or the empty string), and the
    part after it. *)
Fixpoint partition (c : ascii) (s : string) : string * bool * string :=
  match s with
  | EmptyString => (EmptyString, false, EmptyString)
  | String a r =>
      if Ascii.eqb a c then (EmptyString, true, r)
      else let '(h, found, t) := partition c r in (String a h, found, t)
  end.

(** [s.rpartition(c)]: split at the last [c]; when there is none the
    whole string is the third component. *)
Fixpoint rpartition (c : ascii) (s : string) : string * bool * string :=
  match s with
  | EmptyString => (EmptyString, false, EmptyString)
  | String a r =>
      match rpartition c r with
      | (h, true, t) => (String a h, true, t)
      | (_, false, t) =>
          if Ascii.eqb a c then (EmptyString, true, r)
          else (EmptyString, false, String a t)
      end
  end.

(** [s.startswith(c)] *)
Definition startswith (c : ascii) (s : string) : bool :=
  match s with
  | String a _ => Ascii.eqb a c
  | EmptyString => false
  end.

(** [s.isdigit() and s.isascii()] *)
Definition isdigit (s : string) : bool :=
  match s with
  | EmptyString => false
  | _ => all is_digit s
  end.

Definition digit_val (c : ascii) : Z := Z.of_nat (nat_of_ascii c) - 48.

(** The value of a string of decimal digits, most significant first. *)
Fixpoint digits_val (acc : Z) (s : string) : Z :=
  match s with
  | EmptyString => acc
  | String c r => digits_val (10 * acc + digit_val c) r
  end.

(** The digit part of an integer literal: decimal digits, where single
    underscores may stand between two digits.  [prev] tells whether the
    previous character was a digit. *)
Fixpoint int_digits (prev : bool) (acc : Z) (s : string) : option Z :=
  match s with
  | EmptyString => if prev then Some acc else None
  | String c r =>
      if is_digit c then int_digits true (10 * acc + digit_val c) r
      else if Ascii.eqb c "_" then
             (if prev then int_digits false acc r else None)
      else None
  end.

(** What [int()] is left with once the surrounding white space and one
    sign are taken off. *)
Definition int_body (s : string) : bool * string :=
  match rstrip is_c_space (lstrip is_c_space s) with
  | String "-" r => (true, r)
  | String "+" r => (false, r)
  | r => (false, r)
  end.

(** The scan that precedes the conversion: the number of digits at the
    head of the literal, single underscores between them not counted;
    [None] when an underscore follows another or ends the run. *)
Fixpoint digit_run (prev : bool) (n : nat) (s : string) : option nat :=
  match s with
  | EmptyString => if prev then None else Some n
  | String c r =>
      if is_digit c then digit_run false (S n) r
      else if Ascii.eqb c "_" then (if prev then None else digit_run true n r)
      else if prev then None else Some n
  end.

(** [sys.get_int_max_str_digits()], at its default. *)
Definition max_str_digits : nat := 4300.

(** The number of digits of a literal that is refused for its length. *)
Definition over_limit (s : string) : option nat :=
  match snd (int_body s) with
  | String "_" _ => None
  | r =>
      match digit_run false 0 r with
      | Some n => if (max_str_digits <? n)%nat then Some n else None
      | None => None
      end
  end.

(** [int(s)] in base ten: surrounding white space is ignored, one sign
    may precede the digits, and a literal of more than 4300 digits is
    refused.  [None] stands for the [ValueError]. *)
Definition int (s : string) : option Z :=
  match over_limit s with
  | Some _ => None
  | None =>
      let '(negative, r) := int_body s in
      if negative then option_map Z.opp (int_digits false 0 r)
      else int_digits false 0 r
  end.

(** [str(n)] for a natural number. *)
Fixpoint str_nat_aux (fuel n : nat) (acc : string) : string :=
  match fuel with
  | O => acc
  | S fuel' =>
      let acc' := String (ascii_of_nat (48 + n mod 10)) acc in
      if (n <? 10)%nat then acc' else str_nat_aux fuel' (n / 10) acc'
  end.

Definition str_nat (n : nat) : string := str_nat_aux (S n) n EmptyString.

(** [sep.join(l)] *)
Fixpoint join (sep : string) (l : list string) : string :=
  match l with
  | [] => EmptyString
  | [x] => x
  | x :: r => x ++ sep ++ join sep r
  end.

End PyStr.

(** ** [urllib.parse]

    [urlparse] and the attributes of its result that [_parse_db_env] reads,
    after CPython 3.11.  [_checknetloc] only acts on a netloc that is not
    ASCII and is left out. *)
Module UrlLib.

Record ParseResult : Type := mkParseResult {
  scheme : string;
  netloc : string;
  path : string;
  params : string;
  query : string;
  fragment : string
}.

(** [scheme_chars] *)
Definition scheme_char (c : ascii) : bool :=
  PyStr.is_alpha c || PyStr.is_digit c
  || Ascii.eqb c "+" || Ascii.eqb c "-" || Ascii.eqb c ".".

(** [_WHATWG_C0_CONTROL_OR_SPACE] *)
Definition c0_control_or_space (c : ascii) : bool :=
  (nat_of_ascii c <=? 32)%nat.

(** [uses_params] *)
Definition uses_params : list string :=
  [EmptyString; "ftp"; "hdl"; "prospero"; "http"; "imap"; "https"; "shttp"; "rtsp";
   "rtspu"; "sip"; "sips"; "mms"; "sftp"; "tel"].

Definition is_netloc_delim (c : ascii) : bool :=
  Ascii.eqb c "/" || Ascii.eqb c "?" || Ascii.eqb c "#".

(** [_splitnetloc(url, 2)], applied to what follows the two slashes: the
    domain runs up to the first of [/], [?] and [#]. *)
Fixpoint _splitnetloc (url : string) : string * string :=
  match url with
  | EmptyString => (EmptyString, EmptyString)
  | String a r =>
      if is_netloc_delim a then (EmptyString, url)
      else let '(d, rest) := _splitnetloc r in (String a d, rest)
  end.

(** [_splitparams(url)] *)
Definition _splitparams (url : string) : string * string :=
  if PyStr.contains "/" url then
    let '(dir, _, last) := PyStr.rpartition "/" url in
    let '(pre, found, post) := PyStr.partition ";" last in
    if found then (dir ++ "/" ++ pre, post) else (url, EmptyString)
  else
    let '(pre, found, post) := PyStr.partition ";" url in
    if found then (pre, post)
    else (* [url[:-1], url[0:]] *)
      (PyStr.rev (match PyStr.rev url with String _ r => r | e => e end), url).

Section WithIpAddress.

(** [_check_bracketed_host(hostname)] relies on the [ipaddress] module
    and on a regular expression.  It is taken as a parameter: [Some msg]
    when it raises [ValueError(msg)]. *)
Variable _check_bracketed_host : string -> option string.

(** [_check_bracketed_netloc(netloc)]: [Some msg] for [ValueError]. *)
Definition _check_bracketed_netloc (netloc : string) : option string :=
  let '(_, _, hostname_and_port) := PyStr.rpartition "@" netloc in
  let '(before_bracket, have_open_br, bracketed) :=
    PyStr.partition "[" hostname_and_port in
  if have_open_br then
    if negb (String.eqb before_bracket EmptyString) then Some "Invalid IPv6 URL"
    else
      let '(hostname, _, port) := PyStr.partition "]" bracketed in
      if negb (String.eqb port EmptyString) && negb (PyStr.startswith ":" port)
      then Some "Invalid IPv6 URL"
      else _check_bracketed_host hostname
  else
    let '(hostname, _, _) := PyStr.partition ":" hostname_and_port in
    _check_bracketed_host hostname.

(** [urlsplit(url)] followed by the parameter split of [urlparse(url)],
    with the default [scheme=''] and [allow_fragments=True]. *)
Definition urlparse (url : string) : Exception + ParseResult :=
  let url := PyStr.lstrip c0_control_or_space url in
  let url := PyStr.remove "010" (PyStr.remove "013" (PyStr.remove "009" url)) in
  let '(pre, found, post) := PyStr.partition ":" url in
  let '(scheme, url) :=
    if found && negb (String.eqb pre EmptyString)
       && match url with String c _ => PyStr.is_alpha c | _ => false end
       && PyStr.all scheme_char pre
    then (PyStr.lower pre, post)
    else (EmptyString, url) in
  let split_rest (netloc url : string) : Exception + ParseResult :=
    let '(url, fragment) :=
      let '(u, found, f) := PyStr.partition "#" url in
      if found then (u, f) else (url, EmptyString) in
    let '(url, query) :=
      let '(u, found, q) := PyStr.partition "?" url in
      if found then (u, q) else (url, EmptyString) in
    let '(url, params) :=
      if bool_decide (scheme ∈ uses_params) && PyStr.contains ";" url
      then _splitparams url else (url, EmptyString) in
    inr (mkParseResult scheme netloc url params query fragment) in
  match url with
  | String "/" (String "/" r) =>
      let '(netloc, url) := _splitnetloc r in
      let open := PyStr.contains "[" netloc in
      let close := PyStr.contains "]" netloc in
      if (open && negb close) || (close && negb open)
      then inl (ValueError "Invalid IPv6 URL")
      else if open && close then
        match _check_bracketed_netloc netloc with
        | Some msg => inl (ValueError msg)
        | None => split_rest netloc url
        end
      else split_rest netloc url
  | _ => split_rest EmptyString url
  end.

End WithIpAddress.

(** [_userinfo]: the [username] and [password] attributes *)
Definition _userinfo (r : ParseResult) : option string * option string :=
  let '(userinfo, have_info, _) := PyStr.rpartition "@" (netloc r) in
  if have_info then
    let '(username, have_password, password) := PyStr.partition ":" userinfo in
    (Some username, if have_password then Some password else None)
  else (None, None).

Definition username (r : ParseResult) : option string := fst (_userinfo r).
Definition password (r : ParseResult) : option string := snd (_userinfo r).

(** [_hostinfo]: the host name and the port text, before conversion *)
Definition _hostinfo (r : ParseResult) : string * option string :=
  let '(_, _, hostinfo) := PyStr.rpartition "@" (netloc r) in
  let '(_, have_open_br, bracketed) := PyStr.partition "[" hostinfo in
  let '(hostname, port) :=
    if have_open_br then
      let '(hostname, _, port) := PyStr.partition "]" bracketed in
      let '(_, _, port) := PyStr.partition ":" port in
      (hostname, port)
    else
      let '(hostname, _, port) := PyStr.partition ":" hostinfo in
      (hostname, port) in
  (hostname, if String.eqb port EmptyString then None else Some port).

(** The [hostname] attribute: lower-cased, an IPv6 zone kept as it is. *)
Definition hostname (r : ParseResult) : option string :=
  let hostname := fst (_hostinfo r) in
  if String.eqb hostname EmptyString then None
  else
    let '(hostname, percent, zone) := PyStr.partition "%" hostname in
    Some (PyStr.lower hostname ++ (if percent then "%" else EmptyString) ++ zone).

(** Python's [repr] of the port text is not reproduced: the message
    carries the text between plain quotes. *)
Definition port (r : ParseResult) : Exception + option Z :=
  match snd (_hostinfo r) with
  | None => inr None
  | Some port =>
      if PyStr.isdigit port then
        let port := PyStr.digits_val 0 port in
        if ((0 <=? port) && (port <=? 65535))%Z then inr (Some port)
        else inl (ValueError "Port out of range 0-65535")
      else inl (ValueError
                  ("Port could not be cast to integer value as '" ++ port ++ "'"))
  end.

End UrlLib.

(** ** The store: a PostgreSQL database with the schema of
       [db_create_tables.py]

    The three tables with their [SERIAL] keys, the [UNIQUE] constraints on
    [status.name] and [users.email], the lengths of the [VARCHAR] columns
    and the two foreign keys of [tasks].  An insert that meets a conflict
    still takes a value from the sequence.  The last value of a table's
    sequence is kept with the table; sequences are not transactional, so
    what ends a transaction without a commit goes back to the committed
    rows and keeps the values drawn ([keep_sequences]). *)
Module Pg.

Record UserRow : Type := mkUser { u_id : Z; fullname : string; email : string }.
Record StatusRow : Type := mkStatus { s_id : Z; name : string }.
Record TaskRow : Type := mkTask {
  t_id : Z; title : string; description : string;
  status_id : Z; user_id : Z
}.

(** A table with a [SERIAL] key: its rows in insertion order and the last
    value its sequence has handed out. *)
Record Table (R : Type) : Type := mkTable { rows : list R; last_id : Z }.
Arguments mkTable {R} _ _.
Arguments rows {R} _.
Arguments last_id {R} _.

(** A table that was never created is [None]. *)
Record Database : Type := mkDatabase {
  users : option (Table UserRow);
  status : option (Table StatusRow);
  tasks : option (Table TaskRow)
}.

Inductive TableName : Type := Users | Status | Tasks.

(** The statements the two scripts send. *)
Inductive Sql : Type :=
| CREATE_TABLE_IF_NOT_EXISTS (t : TableName)
| INSERT_STATUS (name : string)              (* ON CONFLICT (name) DO NOTHING *)
| INSERT_USER (fullname email : string)      (* ON CONFLICT (email) DO NOTHING *)
| SELECT_USER_IDS
| SELECT_STATUS_IDS
| INSERT_TASK (title description : string) (status_id user_id : Z).

Definition empty_table {R} : Table R := mkTable [] 0.

Definition undefined_table (t : string) : Exception :=
  ProgrammingError ("relation " ++ t ++ " does not exist")%string.

Definition too_long (n : nat) : Exception :=
  DataError (if (n =? 50)%nat
             then "value too long for type character varying(50)"
             else "value too long for type character varying(100)").

Definition user_ids (t : Table UserRow) : list Z := map u_id (rows t).
Definition status_ids (t : Table StatusRow) : list Z := map s_id (rows t).

(** One statement on a database: the new database and the rows it
    returns (a single [id] column), or the error the server reports. *)
Definition run (q : Sql) (db : Database) : Exception + Database * list Z :=
  match q with
  | CREATE_TABLE_IF_NOT_EXISTS Users =>
      match users db with
      | Some _ => inr (db, [])
      | None => inr (mkDatabase (Some empty_table) (status db) (tasks db), [])
      end
  | CREATE_TABLE_IF_NOT_EXISTS Status =>
      match status db with
      | Some _ => inr (db, [])
      | None => inr (mkDatabase (users db) (Some empty_table) (tasks db), [])
      end
  | CREATE_TABLE_IF_NOT_EXISTS Tasks =>
      match tasks db with
      | Some _ => inr (db, [])
      | None =>
          match status db, users db with
          | None, _ => inl (undefined_table "status")
          | _, None => inl (undefined_table "users")
          | Some _, Some _ =>
              inr (mkDatabase (users db) (status db) (Some empty_table), [])
          end
      end
  | INSERT_STATUS n =>
      match status db with
      | None => inl (undefined_table "status")
      | Some t =>
          if (50 <? String.length n)%nat then inl (too_long 50)
          else
            let id := last_id t + 1 in
            let t' :=
              if bool_decide (n ∈ map name (rows t)) then mkTable (rows t) id
              else mkTable (rows t ++ [mkStatus id n])%list id in
            inr (mkDatabase (users db) (Some t') (tasks db), [])
      end
  | INSERT_USER f e =>
      match users db with
      | None => inl (undefined_table "users")
      | Some t =>
          if ((100 <? String.length f) || (100 <? String.length e))%nat
          then inl (too_long 100)
          else
            let id := last_id t + 1 in
            let t' :=
              if bool_decide (e ∈ map email (rows t)) then mkTable (rows t) id
              else mkTable (rows t ++ [mkUser id f e])%list id in
            inr (mkDatabase (Some t') (status db) (tasks db), [])
      end
  | SELECT_USER_IDS =>
      match users db with
      | None => inl (undefined_table "users")
      | Some t => inr (db, user_ids t)
      end
  | SELECT_STATUS_IDS =>
      match status db with
      | None => inl (undefined_table "status")
      | Some t => inr (db, status_ids t)
      end
  | INSERT_TASK ti de sid uid =>
      match tasks db, status db, users db with
      | Some t, Some st, Some us =>
          if (100 <? String.length ti)%nat then inl (too_long 100)
          else if negb (bool_decide (sid ∈ status_ids st)) then
            inl (IntegrityError
                   "insert on table tasks violates foreign key constraint tasks_status_id_fkey")
          else if negb (bool_decide (uid ∈ user_ids us)) then
            inl (IntegrityError
                   "insert on table tasks violates foreign key constraint tasks_user_id_fkey")
          else
            let id := last_id t + 1 in
            inr (mkDatabase (users db) (status db)
                   (Some (mkTable (rows t ++ [mkTask id ti de sid uid])%list id)), [])
      | _, _, _ => inl (undefined_table "tasks")
      end
  end.

(** Several statements sent in one round trip ([b";".join(sqls)]): they
    run in order, the first error ends the run, and the rows of the last
    statement are the result. *)
Fixpoint run_all (qs : list Sql) (db : Database) (res : list Z)
  : Exception + Database * list Z :=
  match qs with
  | [] => inr (db, res)
  | q :: qs' =>
      match run q db with
      | inl e => inl e
      | inr (db', res') => run_all qs' db' res'
      end
  end.

(** The database the statements of [qs] leave behind when the run stops at
    the first error: the values the statements before it drew from the
    sequences are drawn for good. *)
Fixpoint run_prefix (qs : list Sql) (db : Database) : Database :=
  match qs with
  | [] => db
  | q :: qs' =>
      match run q db with
      | inl _ => db
      | inr (db', _) => run_prefix qs' db'
      end
  end.

(** A committed table after a transaction that saw it as [view] was
    rolled back: the committed rows, the sequence where the transaction
    left it.  A table the transaction created is gone. *)
Definition keep_sequence {R} (committed view : option (Table R)) : option (Table R) :=
  match committed with
  | None => None
  | Some t =>
      Some (mkTable (rows t)
              (match view with Some v => last_id v | None => last_id t end))
  end.

Definition keep_sequences (committed view : Database) : Database :=
  mkDatabase (keep_sequence (users committed) (users view))
    (keep_sequence (status committed) (status view))
    (keep_sequence (tasks committed) (tasks view)).

(** The rows of the three tables, without the sequences. *)
Definition data (db : Database)
  : option (list UserRow) * option (list StatusRow) * option (list TaskRow) :=
  (option_map rows (users db), option_map rows (status db),
   option_map rows (tasks db)).

End Pg.

(** ** The world of a script run *)

Inductive Level : Type := INFO | WARNING | ERROR.

Inductive Arg : Type :=
| ArgInt (z : Z)
| ArgStr (s : string)
| ArgExc (e : Exception).

(** A call of the [logging] module: level, format string, arguments, and
    whether the traceback is attached ([logging.exception]). *)
Record LogRecord : Type := mkLog {
  levelname : Level;
  msg : string;
  args : list Arg;
  exc_info : bool
}.

(** What the outside decides, indexed by how many times it was asked:
    how long the n-th [psycopg2.connect] takes (milliseconds) and whether
    it fails; whether the n-th round trip to the server fails for a reason
    that is not in the statements sent (lost link, server shutdown, no
    space left, a permission withdrawn), and whether that failure leaves
    the link broken; the values the n-th calls of the Faker providers and
    of [random] produce. *)
Record Oracle : Type := mkOracle {
  connect_outcome : nat -> N * option Exception;
  server_fault : nat -> option Exception;
  breaks_link : nat -> bool;
  name_at : nat -> string;
  email_at : nat -> string;
  sentence_at : nat -> string;
  text_at : nat -> string;
  randbelow_at : nat -> nat
}.

(** The state of the one connection a script holds. *)
Record Session : Type := mkSession {
  autocommit : bool;
  closed : bool;
  working : Pg.Database;       (* the database as the open transaction sees it *)
  aborted : bool               (* the transaction has failed and awaits rollback *)
}.

(** [server] is the committed database as the one client sees it between
    transactions: the sequence values an open transaction draws are
    entered into it when the transaction ends, with or without a commit.
    [begun] is the status of the connection: a transaction is open on it,
    that is, a statement was sent with autocommit off and neither a commit
    nor a rollback since. *)
Record World : Type := mkWorld {
  environ : gmap string string;       (* os.environ, after load_dotenv() *)
  clock : Z;                          (* time.time(), in milliseconds *)
  connects : nat;                     (* calls of psycopg2.connect so far *)
  round_trips : nat;                  (* statements, commits, rollbacks sent so far *)
  server : Pg.Database;               (* the committed database *)
  session : option Session;
  begun : bool;                       (* conn.status is STATUS_BEGIN *)
  fake_calls : nat;                   (* calls of Faker providers so far *)
  unique_seen : gset string;          (* fake.unique: the emails already returned *)
  random_calls : nat;                 (* calls of random.choice so far *)
  records : list LogRecord;           (* logging output, oldest first *)
  oracle : Oracle
}.

Definition set_environ (e : gmap string string) (w : World) : World :=
  mkWorld e (clock w) (connects w) (round_trips w) (server w) (session w)
    (begun w) (fake_calls w) (unique_seen w) (random_calls w) (records w) (oracle w).

Definition set_clock (t : Z) (w : World) : World :=
  mkWorld (environ w) t (connects w) (round_trips w) (server w) (session w)
    (begun w) (fake_calls w) (unique_seen w) (random_calls w) (records w) (oracle w).

Definition set_connects (n : nat) (w : World) : World :=
  mkWorld (environ w) (clock w) n (round_trips w) (server w) (session w)
    (begun w) (fake_calls w) (unique_seen w) (random_calls w) (records w) (oracle w).

Definition set_round_trips (n : nat) (w : World) : World :=
  mkWorld (environ w) (clock w) (connects w) n (server w) (session w)
    (begun w) (fake_calls w) (unique_seen w) (random_calls w) (records w) (oracle w).

Definition set_server (db : Pg.Database) (w : World) : World :=
  mkWorld (environ w) (clock w) (connects w) (round_trips w) db (session w)
    (begun w) (fake_calls w) (unique_seen w) (random_calls w) (records w) (oracle w).

Definition set_session (s : option Session) (w : World) : World :=
  mkWorld (environ w) (clock w) (connects w) (round_trips w) (server w) s
    (begun w) (fake_calls w) (unique_seen w) (random_calls w) (records w) (oracle w).

Definition set_begun (b : bool) (w : World) : World :=
  mkWorld (environ w) (clock w) (connects w) (round_trips w) (server w) (session w)
    b (fake_calls w) (unique_seen w) (random_calls w) (records w) (oracle w).

Definition set_fake_calls (n : nat) (w : World) : World :=
  mkWorld (environ w) (clock w) (connects w) (round_trips w) (server w) (session w)
    (begun w) n (unique_seen w) (random_calls w) (records w) (oracle w).

Definition set_unique_seen (g : gset string) (w : World) : World :=
  mkWorld (environ w) (clock w) (connects w) (round_trips w) (server w) (session w)
    (begun w) (fake_calls w) g (random_calls w) (records w) (oracle w).

Definition set_random_calls (n : nat) (w : World) : World :=
  mkWorld (environ w) (clock w) (connects w) (round_trips w) (server w) (session w)
    (begun w) (fake_calls w) (unique_seen w) n (records w) (oracle w).

Definition set_records (l : list LogRecord) (w : World) : World :=
  mkWorld (environ w) (clock w) (connects w) (round_trips w) (server w) (session w)
    (begun w) (fake_calls w) (unique_seen w) (random_calls w) l (oracle w).

(** ** Computations: state passing with exceptions *)

Definition M (A : Type) : Type := World -> (Exception + A) * World.

Definition ret {A} (a : A) : M A := fun w => (inr a, w).

Definition raise {A} (e : Exception) : M A := fun w => (inl e, w).

Definition bind {A B} (m : M A) (k : A -> M B) : M B :=
  fun w =>
    match m w with
    | (inl e, w') => (inl e, w')
    | (inr a, w') => k a w'
    end.

Notation "'let!' x ':=' m 'in' k" := (bind m (fun x => k))
  (at level 10, x name, m at level 100, k at level 200).
Notation "m '>>' k" := (bind m (fun _ => k))
  (at level 90, right associativity).

(** [try: m  except Exception as exc: h exc] *)
Definition try_except {A} (m : M A) (h : Exception -> M A) : M A :=
  fun w =>
    match m w with
    | (inl e, w') => h e w'
    | (inr a, w') => (inr a, w')
    end.

(** [try: m  finally: c]: [c] always runs; when it raises, its exception
    replaces the outcome of [m]. *)
Definition try_finally {A} (m : M A) (c : M unit) : M A :=
  fun w =>
    let '(r, w') := m w in
    match c w' with
    | (inl e, w'') => (inl e, w'')
    | (inr _, w'') => (r, w'')
    end.

(** A value together with the equation that it is the result of [a]. *)
Definition inspect {A} (a : A) : {b : A | a = b} := exist _ a eq_refl.

(** [for x in l: body x] *)
Fixpoint for_each {A} (l : list A) (body : A -> M unit) : M unit :=
  match l with
  | [] => ret tt
  | x :: l' => body x >> for_each l' body
  end.

(** [[f() for _ in range(n)]] *)
Fixpoint comprehension {A} (n : nat) (f : M A) : M (list A) :=
  match n with
  | O => ret []
  | S n' => let! x := f in let! r := comprehension n' f in ret (x :: r)
  end.

(** *** [logging], [time], [os] *)
Module logging.
Definition log (l : Level) (tb : bool) (fmt : string) (a : list Arg) : M unit :=
  fun w => (inr tt, set_records (records w ++ [mkLog l fmt a tb])%list w).
Definition info := log INFO false.
Definition warning := log WARNING false.
Definition error := log ERROR false.
Definition exception := log ERROR true.
End logging.

Module time.
(** [time.time()] *)
Definition time : M Z := fun w => (inr (clock w), w).
(** [time.sleep(ms / 1000)] *)
Definition sleep (ms : Z) : M unit := fun w => (inr tt, set_clock (clock w + ms) w).
End time.

Module os.
(** [os.getenv(k)] *)
Definition getenv (env : gmap string string) (k : string) : option string :=
  env !! k.
(** [os.getenv(k, d)] *)
Definition getenv_default (env : gmap string string) (k d : string) : string :=
  default d (env !! k).
(** [os.environ[k]] *)
Definition environ_get (env : gmap string string) (k : string)
  : Exception + string :=
  match env !! k with
  | Some v => inr v
  | None => inl (KeyError k)
  end.
End os.

(** A computation that only reads the process environment. *)
Definition reading {A} (f : gmap string string -> Exception + A) : M A :=
  fun w => (f (environ w), w).

(** Python truthiness of an [Optional[str]]: [None] and [''] are false. *)
Definition truthy (v : option string) : bool :=
  match v with
  | Some (String _ _) => true
  | _ => false
  end.

(** *** [psycopg2] *)

(** The scripts hold one connection at a time; its state is the [session]
    of the world and the Python object is a handle to it. *)
Inductive PGConnection : Type := the_connection.
Inductive Cursor : Type := the_cursor.

Module psycopg2.

Definition already_closed : Exception := InterfaceError "connection already closed".

(** [psycopg2.connect] with keyword arguments.  Whether the server accepts the
    parameters, and after how long, is the oracle's decision.  A new
    connection starts with [autocommit] off and no transaction open. *)
Definition connect {K : Type} (kwargs : K) : M PGConnection :=
  fun w =>
    let '(d, out) := connect_outcome (oracle w) (connects w) in
    let w1 := set_clock (clock w + Z.of_N d) (set_connects (S (connects w)) w) in
    match out with
    | Some e => (inl e, w1)
    | None =>
        (inr the_connection,
         set_begun false
           (set_session (Some (mkSession false false (server w1) false)) w1))
    end.

(** The session behind a handle, when it is still open. *)
Definition opened (conn : PGConnection) : M Session :=
  fun w =>
    match session w with
    | Some s => if closed s then (inl already_closed, w) else (inr s, w)
    | None => (inl already_closed, w)
    end.

(** [conn.autocommit = b] *)
Definition set_autocommit (conn : PGConnection) (b : bool) : M unit :=
  let! s := opened conn in
  fun w => (inr tt, set_session (Some (mkSession b (closed s) (working s) (aborted s))) w).

(** [conn.cursor()] *)
Definition cursor (conn : PGConnection) : M Cursor :=
  let! _ := opened conn in ret the_cursor.

(** The world once the transaction of session [s] has ended without a
    commit: the server has dropped what the transaction did, except the
    values it drew from the sequences.  [gone] tells whether the
    connection is closed as well. *)
Definition dropped (s : Session) (gone : bool) (w : World) : World :=
  let db := Pg.keep_sequences (server w) (working s) in
  set_begun false
    (set_server db (set_session (Some (mkSession (autocommit s) gone db false)) w)).

(** [cur.execute(q1; ...; qn)] followed by [cur.fetchall()]: one round
    trip.  Without autocommit the statements belong to the transaction,
    which the first of them opens, and change only [working].  When the
    link is lost the driver marks the connection closed.  Any other error
    marks the transaction as failed: every statement sent before the
    rollback is refused by the server. *)
Definition execute (cur : Cursor) (qs : list Pg.Sql) : M (list Z) :=
  let! s := opened the_connection in
  fun w =>
    let w1 := set_begun (begun w || negb (autocommit s))
                (set_round_trips (S (round_trips w)) w) in
    let failed db := Some (mkSession (autocommit s) false db (negb (autocommit s))) in
    match server_fault (oracle w) (round_trips w) with
    | Some e =>
        if breaks_link (oracle w) (round_trips w) then (inl e, dropped s true w1)
        else (inl e, set_session (failed (working s)) w1)
    | None =>
        if aborted s then
          (inl (InternalError
                  "current transaction is aborted, commands ignored until end of transaction block"),
           w1)
        else
          match Pg.run_all qs (working s) [] with
          | inl e =>
              if autocommit s then
                (inl e,
                 dropped (mkSession true false (Pg.run_prefix qs (working s)) false)
                   false w1)
              else (inl e, set_session (failed (Pg.run_prefix qs (working s))) w1)
          | inr (db, res) =>
              let w2 := set_session (Some (mkSession (autocommit s) false db false)) w1 in
              (inr res, if autocommit s then set_server db w2 else w2)
          end
    end.

(** [conn.commit()].  With no transaction open nothing is sent: the
    connection then sees the committed database, so the database stays
    what it is.  Otherwise it is one round trip, after which no transaction
    is open whatever the outcome; a [COMMIT] that fails, or that ends a
    failed transaction, leaves the committed rows as they were. *)
Definition commit (conn : PGConnection) : M unit :=
  let! s := opened conn in
  fun w =>
    if begun w then
      let w1 := set_round_trips (S (round_trips w)) w in
      match server_fault (oracle w) (round_trips w) with
      | Some e => (inl e, dropped s (breaks_link (oracle w) (round_trips w)) w1)
      | None =>
          if aborted s then (inr tt, dropped s false w1)
          else
            (inr tt,
             set_begun false
               (set_server (working s)
                  (set_session (Some (mkSession (autocommit s) false (working s) false))
                     w1)))
      end
    else (inr tt, set_server (working s) w).

(** [conn.rollback()].  With no transaction open nothing is sent.
    Otherwise it is one round trip; when it fails and the link holds, the
    transaction stays as it was. *)
Definition rollback (conn : PGConnection) : M unit :=
  let! s := opened conn in
  fun w =>
    if begun w then
      let w1 := set_round_trips (S (round_trips w)) w in
      match server_fault (oracle w) (round_trips w) with
      | Some e =>
          if breaks_link (oracle w) (round_trips w) then (inl e, dropped s true w1)
          else (inl e, w1)
      | None => (inr tt, dropped s false w1)
      end
    else (inr tt, w).

(** [conn.close()]: the server drops the open transaction; closing a
    closed connection does nothing. *)
Definition close (conn : PGConnection) : M unit :=
  fun w =>
    match session w with
    | Some s => if closed s then (inr tt, w) else (inr tt, dropped s true w)
    | None => (inr tt, w)
    end.

(** [with conn: body]: commit when the body returns, roll back when it
    raises; the connection stays open. *)
Definition with_connection {A} (conn : PGConnection) (body : M A) : M A :=
  fun w =>
    match body w with
    | (inr a, w1) =>
        match commit conn w1 with
        | (inl e, w2) => (inl e, w2)
        | (inr _, w2) => (inr a, w2)
        end
    | (inl e, w1) =>
        match rollback conn w1 with
        | (inl e', w2) => (inl e', w2)
        | (inr _, w2) => (inl e, w2)
        end
    end.

(** [extras._paginate(seq, page_size)] for a [page_size] of at least one:
    [page] is the page being filled and [room] the number of items it
    still takes. *)
Fixpoint _paginate {A} (page_size : nat) (page : list A) (room : nat)
  (seq : list A) : list (list A) :=
  match seq with
  | [] => match page with [] => [] | _ => [page] end
  | x :: rest =>
      match room with
      | S (S r) => _paginate page_size (page ++ [x])%list (S r) rest
      | _ => (page ++ [x])%list :: _paginate page_size [] page_size rest
      end
  end.

(** [extras.execute_batch(cur, sql, argslist, page_size)]: [sql] maps an
    argument tuple to the statement [cur.mogrify(sql, args)]. *)
Definition execute_batch {A} (cur : Cursor) (sql : A -> Pg.Sql)
  (argslist : list A) (page_size : nat) : M unit :=
  for_each (_paginate page_size [] page_size argslist)
    (fun page => let! _ := execute cur (map sql page) in ret tt).

End psycopg2.

(** *** [faker] and [random] *)
Module fake.

Definition provider (f : Oracle -> nat -> string) : M string :=
  fun w => (inr (f (oracle w) (fake_calls w)), set_fake_calls (S (fake_calls w)) w).

(** [fake.name()] *)
Definition name : M string := provider name_at.
(** [fake.email()] *)
Definition email : M string := provider email_at.
(** [fake.sentence(nb_words=4)] *)
Definition sentence : M string := provider sentence_at.
(** [fake.text()] *)
Definition text : M string := provider text_at.

(** The loop of [UniqueProxy._wrap]: [for i in range(n)], leaving as
    soon as [retval] is not among the values already returned.  [None]
    is the sentinel, which always counts as returned. *)
Fixpoint unique_attempts (n : nat) (function : M string)
  (retval : option string) : M string :=
  match n with
  | O => raise (UniquenessException
                  "Got duplicated values after 1,000 iterations.")
  | S n' =>
      fun w =>
        match retval with
        | Some v =>
            if bool_decide (v ∈ unique_seen w) then
              (let! v' := function in unique_attempts n' function (Some v')) w
            else (inr v, w)
        | None => (let! v' := function in unique_attempts n' function (Some v')) w
        end
  end.

(** [fake.unique.email()], with [_UNIQUE_ATTEMPTS = 1000] *)
Definition unique_email : M string :=
  let! retval := unique_attempts 1000 email None in
  fun w => (inr retval, set_unique_seen ({[retval]} ∪ unique_seen w) w).

(** [fake.unique.clear()] *)
Definition unique_clear : M unit :=
  fun w => (inr tt, set_unique_seen ∅ w).

End fake.

Module random.
(** [random.choice(seq)]: [seq[self._randbelow(len(seq))]] *)
Definition choice (seq : list Z) : M Z :=
  fun w =>
    match seq with
    | [] => (inl (IndexError "Cannot choose from an empty sequence"), w)
    | _ =>
        (inr (nth (randbelow_at (oracle w) (random_calls w) mod length seq)%nat seq 0),
         set_random_calls (S (random_calls w)) w)
    end.
End random.

(** ** [seed.py] *)
Module Seed.

(** The keyword arguments [_parse_db_env] returns. *)
Record Cfg : Type := mkCfg {
  dbname : option string;
  user : option string;
  password : option string;
  host : option string;
  port : Z
}.

(** [SEED_USERS = int(os.getenv("SEED_USERS", "10"))]; [None] when the
    import fails with [ValueError]. *)
Definition SEED_USERS (env : gmap string string) : option Z :=
  PyStr.int (os.getenv_default env "SEED_USERS" "10").

Definition SEED_TASKS (env : gmap string string) : option Z :=
  PyStr.int (os.getenv_default env "SEED_TASKS" "30").

Definition accepted_schemes : list string :=
  ["postgres"; "postgresql"; "postgresql+psycopg2"].

Definition required : list string :=
  ["DB_NAME"; "DB_USER"; "DB_PASSWORD"; "DB_HOST"].

(** [[k for k in required if not os.getenv(k)]] *)
Definition missing (env : gmap string string) : list string :=
  List.filter (fun k => negb (truthy (os.getenv env k))) required.

(** The [ValueError] of [int(s)]. *)
Definition invalid_literal (s : string) : Exception :=
  match PyStr.over_limit s with
  | Some n =>
      ValueError ("Exceeds the limit (4300 digits) for integer string conversion: "
                  ++ "value has " ++ PyStr.str_nat n
                  ++ " digits; use sys.set_int_max_str_digits() to increase the limit")
  | None => ValueError ("invalid literal for int() with base 10: '" ++ s ++ "'")
  end.

Section WithIpAddress.

Variable _check_bracketed_host : string -> option string.

Definition _parse_db_env (env : gmap string string) : Exception + Cfg :=
  let url := os.getenv env "DATABASE_URL" in
  if truthy url then
    match UrlLib.urlparse _check_bracketed_host (default EmptyString url) with
    | inl e => inl e
    | inr parsed =>
        if negb (bool_decide (UrlLib.scheme parsed ∈ accepted_schemes)) then
          inl (ValueError ("Unsupported scheme in DATABASE_URL: "
                           ++ UrlLib.scheme parsed))
        else
          match UrlLib.port parsed with
          | inl e => inl e
          | inr p =>
              inr (mkCfg
                     (Some (PyStr.lstrip (Ascii.eqb "/") (UrlLib.path parsed)))
                     (UrlLib.username parsed)
                     (UrlLib.password parsed)
                     (UrlLib.hostname parsed)
                     (match p with        (* parsed.port or 5432 *)
                      | Some 0 | None => 5432
                      | Some n => n
                      end))
          end
    end
  else
    (* No defaults here on purpose: misconfig should be visible. *)
    match missing env with
    | _ :: _ =>
        inl (EnvironmentError
               ("Missing required env vars: " ++ PyStr.join ", " (missing env)
                ++ " (or provide DATABASE_URL)"))
    | [] =>
        match PyStr.int (os.getenv_default env "DB_PORT" "5432") with
        | None => inl (invalid_literal (os.getenv_default env "DB_PORT" "5432"))
        | Some p =>
            inr (mkCfg (os.getenv env "DB_NAME") (os.getenv env "DB_USER")
                   (os.getenv env "DB_PASSWORD") (os.getenv env "DB_HOST") p)
        end
    end.

(** The [try] statement inside the loop of [get_connection]: [inr conn]
    when it returns the connection, [inl exc] when the handler has
    logged [exc] and slept. *)
Definition attempt_once (cfg : Cfg) (attempt : Z) : M (Exception + PGConnection) :=
  try_except
    (let! conn := psycopg2.connect cfg in
     psycopg2.set_autocommit conn false >>
     logging.info "Connected to DB on attempt %d." [ArgInt attempt] >>
     ret (inr conn))
    (fun exc =>
       logging.warning "DB not ready (attempt %d): %s" [ArgInt attempt; ArgExc exc] >>
       time.sleep 1500 >>
       ret (inl exc)).

(** [while time.time() < deadline: ...], then the final [raise]. *)
Equations? retry (cfg : Cfg) (deadline attempt : Z) (last_err : option Exception)
  (w : World) : (Exception + PGConnection) * World
  by wf (Z.to_nat (deadline - clock w)) lt :=
  retry cfg deadline attempt last_err w with inspect (clock w <? deadline)%Z := {
    | exist _ true Hlt with inspect (attempt_once cfg (attempt + 1) w) := {
        | exist _ (inr (inr conn), w1) Hrun => (inr conn, w1)
        | exist _ (inr (inl exc), w1) Hrun =>
            retry cfg deadline (attempt + 1) (Some exc) w1
        | exist _ (inl e, w1) Hrun => (inl e, w1) }
    | exist _ false Hlt =>
        (inl (ConnectionError ("Could not connect to DB within timeout: "
                               ++ str_opt_exc last_err)), w) }.
Proof.
  apply Z.ltb_lt in Hlt.
  assert (Hsleep : clock w + 1500 <= clock w1).
  { revert Hrun.
    unfold attempt_once, try_except, bind, psycopg2.connect,
      psycopg2.set_autocommit, psycopg2.opened, logging.info, logging.warning,
      logging.log, time.sleep, ret.
    destruct (connect_outcome (oracle w) (connects w)) as [d [e|]]; simpl;
      intros H; inversion H; subst; simpl; lia. }
  lia.
Defined.

(** [get_connection(max_wait_seconds)] *)
Definition get_connection (max_wait_seconds : Z) : M PGConnection :=
  let! cfg := reading _parse_db_env in
  let! t := time.time in
  let deadline := t + 1000 * max_wait_seconds in
  retry cfg deadline 0 None.

(** *** SQL *)
Definition SQL_INSERT_STATUSES (args : string) : Pg.Sql := Pg.INSERT_STATUS args.
Definition SQL_INSERT_USER (args : string * string) : Pg.Sql :=
  Pg.INSERT_USER (fst args) (snd args).
Definition SQL_SELECT_USER_IDS : Pg.Sql := Pg.SELECT_USER_IDS.
Definition SQL_SELECT_STATUS_IDS : Pg.Sql := Pg.SELECT_STATUS_IDS.
Definition SQL_INSERT_TASK (args : string * string * Z * Z) : Pg.Sql :=
  let '(title, description, status_id, user_id) := args in
  Pg.INSERT_TASK title description status_id user_id.

(** *** Seeding routines *)
Definition statuses : list string := ["new"; "in progress"; "completed"].

Definition seed_statuses (conn : PGConnection) : M unit :=
  (let! cur := psycopg2.cursor conn in
   psycopg2.execute_batch cur SQL_INSERT_STATUSES statuses 50) >>
  logging.info "Statuses upserted." [].

(** [(fake.name(), fake.unique.email())] *)
Definition fake_user : M (string * string) :=
  let! n := fake.name in
  let! e := fake.unique_email in
  ret (n, e).

Definition seed_users (conn : PGConnection) (count : Z) : M unit :=
  let! users := comprehension (Z.to_nat count) fake_user in
  fake.unique_clear >>
  (let! cur := psycopg2.cursor conn in
   psycopg2.execute_batch cur SQL_INSERT_USER users 200) >>
  logging.info "Users inserted/skipped: %d" [ArgInt count].

Definition fake_task (status_ids user_ids : list Z) : M (string * string * Z * Z) :=
  let! title := fake.sentence in
  let! description := fake.text in
  let! status_id := random.choice status_ids in
  let! user_id := random.choice user_ids in
  ret (title, description, status_id, user_id).

Definition is_empty {A} (l : list A) : bool :=
  match l with [] => true | _ => false end.

Definition seed_tasks (conn : PGConnection) (count : Z) : M unit :=
  let! ids :=
    (let! cur := psycopg2.cursor conn in
     let! user_ids := psycopg2.execute cur [SQL_SELECT_USER_IDS] in
     let! status_ids := psycopg2.execute cur [SQL_SELECT_STATUS_IDS] in
     ret (user_ids, status_ids)) in
  let '(user_ids, status_ids) := ids in
  if is_empty user_ids || is_empty status_ids then
    logging.warning "Skip tasks seeding: missing users or statuses." []
  else
    let! tasks := comprehension (Z.to_nat count) (fake_task status_ids user_ids) in
    (let! cur := psycopg2.cursor conn in
     psycopg2.execute_batch cur SQL_INSERT_TASK tasks 500) >>
    logging.info "Tasks inserted: %d" [ArgInt count].

Definition when_conn (conn : option PGConnection) (f : PGConnection -> M unit)
  : M unit :=
  match conn with
  | Some c => f c
  | None => ret tt
  end.

(** [main()], the module constants [SEED_USERS] and [SEED_TASKS] given
    as arguments.  The local variable [conn] is bound exactly when
    [get_connection] has returned. *)
Definition main (SEED_USERS SEED_TASKS : Z) : M unit :=
  fun w =>
    let '(got, w1) := get_connection 30 w in
    let conn := match got with inr c => Some c | inl _ => None end in
    try_finally
      (try_except
         (match got with
          | inl e => raise e
          | inr c =>
              psycopg2.with_connection c
                (seed_statuses c >>
                 seed_users c SEED_USERS >>
                 seed_tasks c SEED_TASKS) >>
              logging.info "Seeding completed successfully." []
          end)
         (fun exc =>
            logging.exception "Seeding failed: %s" [ArgExc exc] >>
            when_conn conn psycopg2.rollback))
      (when_conn conn psycopg2.close >>
       logging.info "DB connection closed." [])
      w1.

End WithIpAddress.

End Seed.

(** ** [db_create_tables.py] *)
Module DbCreateTables.

Definition DDL_STATEMENTS : list Pg.Sql :=
  [Pg.CREATE_TABLE_IF_NOT_EXISTS Pg.Users;
   Pg.CREATE_TABLE_IF_NOT_EXISTS Pg.Status;
   Pg.CREATE_TABLE_IF_NOT_EXISTS Pg.Tasks].

(** The keyword arguments of [get_db_connection], read in this order. *)
Definition connection_kwargs (env : gmap string string)
  : Exception + (string * string * string * string * string) :=
  match os.environ_get env "DB_NAME" with inl e => inl e | inr dbname =>
  match os.environ_get env "DB_USER" with inl e => inl e | inr user =>
  match os.environ_get env "DB_PASSWORD" with inl e => inl e | inr password =>
  match os.environ_get env "DB_HOST" with inl e => inl e | inr host =>
  match os.environ_get env "DB_PORT" with inl e => inl e | inr port =>
    inr (dbname, user, password, host, port)
  end end end end end.

Definition get_db_connection : M PGConnection :=
  let! kwargs := reading connection_kwargs in
  psycopg2.connect kwargs.

Definition create_tables (conn : PGConnection) (statements : list Pg.Sql) : M unit :=
  (let! cur := psycopg2.cursor conn in
   for_each statements (fun ddl => let! _ := psycopg2.execute cur [ddl] in ret tt)) >>
  psycopg2.commit conn.

Definition main : M Z :=
  try_except
    (let! conn := get_db_connection in
     psycopg2.with_connection conn
       (create_tables conn DDL_STATEMENTS >>
        logging.info "Tables created successfully (or already existed)." []) >>
     ret 0)
    (fun exc =>
       logging.error "Failed to create tables: %s" [ArgExc exc] >>
       ret 1).

End DbCreateTables.

(** * Vocabulary of the properties *)

(** ** Configuration *)

(** A variable that [os.getenv] reports as absent or as the empty string
    fails the test [if os.getenv(k)]. *)
Definition unset (env : gmap string string) (k : string) : Prop :=
  truthy (os.getenv env k) = false.

(** ** Connection attempts *)

(** The time [n] failed attempts take, from the attempt numbered [from]: each
    lasts as long as the oracle says and is followed by the sleep of 1.5 s. *)
Fixpoint retry_time (o : Oracle) (from n : nat) : Z :=
  match n with
  | O => 0
  | S n' => Z.of_N (fst (connect_outcome o from)) + 1500 + retry_time o (S from) n'
  end.

(** The failure of the last of [n] attempts, [before] when there was none. *)
Definition last_failure (o : Oracle) (from n : nat) (before : option Exception)
  : option Exception :=
  match n with
  | O => before
  | S k => snd (connect_outcome o (from + k))
  end.

(** ** Transactions *)

(** The connection is open and autocommit is off. *)
Definition txn_open (w : World) : Prop :=
  exists s, session w = Some s /\ closed s = false /\ autocommit s = false.

(** The connection, if there is one, has autocommit off. *)
Definition manual_commit (w : World) : Prop :=
  forall s, session w = Some s -> autocommit s = false.

(** Between [w] and [w'] a round trip failed and took the link with it. *)
Definition link_lost (w w' : World) : Prop :=
  exists n, (round_trips w <= n < round_trips w')%nat
            /\ server_fault (oracle w) n <> None
            /\ breaks_link (oracle w) n = true.


(** A computation that commits nothing and closes nothing: the committed
    rows stay what they are, and the connection stays open unless the link
    is lost on the way. *)
Definition never_commits {A} (m : M A) : Prop :=
  forall w, manual_commit w ->
    let w' := snd (m w) in
    manual_commit w'
    /\ Pg.data (server w') = Pg.data (server w)
    /\ oracle w' = oracle w
    /\ (round_trips w <= round_trips w')%nat
    /\ (is_Some (session w) -> is_Some (session w'))
    /\ (txn_open w -> txn_open w' \/ link_lost w w').

(** With no transaction open the connection sees the committed
    database. *)
Definition coherent (w : World) : Prop :=
  begun w = false -> forall s, session w = Some s -> working s = server w.

(** The open transaction sees the database [db] and has not failed. *)
Definition in_txn (w : World) (db : Pg.Database) : Prop :=
  session w = Some (mkSession false false db false).

(** No round trip fails for a reason outside the statements sent. *)
Definition fault_free (w : World) : Prop :=
  forall n, server_fault (oracle w) n = None.

(** Everything but the session and the count of round trips is the same. *)
Definition same_client (w w' : World) : Prop :=
  environ w' = environ w /\ clock w' = clock w /\ connects w' = connects w
  /\ server w' = server w /\ fake_calls w' = fake_calls w
  /\ unique_seen w' = unique_seen w /\ random_calls w' = random_calls w
  /\ records w' = records w /\ oracle w' = oracle w.

(** Only the generators have advanced. *)
Definition same_server (w w' : World) : Prop :=
  environ w' = environ w /\ clock w' = clock w /\ connects w' = connects w
  /\ round_trips w' = round_trips w /\ server w' = server w
  /\ session w' = session w /\ records w' = records w /\ oracle w' = oracle w.

(** ** Bootstrap *)

(** The database with every missing table created empty and every
    existing one left as it is. *)
Definition ensure_tables (db : Pg.Database) : Pg.Database :=
  Pg.mkDatabase (Some (default Pg.empty_table (Pg.users db)))
    (Some (default Pg.empty_table (Pg.status db)))
    (Some (default Pg.empty_table (Pg.tasks db))).

(** The first of the [k] round trips from the one numbered [n] that fails
    for a reason of the server's own, counted from zero. *)
Fixpoint first_fault (o : Oracle) (n k : nat) : option nat :=
  match k with
  | O => None
  | S k' =>
      match server_fault o n with
      | Some _ => Some O
      | None => option_map S (first_fault o (S n) k')
      end
  end.

(** The connection has drawn no value from a sequence that is not
    committed: what ends its transaction without a commit leaves the
    committed database exactly as it is. *)
Definition quiet (w : World) : Prop :=
  forall s, session w = Some s ->
    Pg.keep_sequences (server w) (working s) = server w.

(** ** Seeding *)









(** The record [seed_tasks] logs when it skips. *)
Definition skip_warning : LogRecord :=
  mkLog WARNING "Skip tasks seeding: missing users or statuses." [] false.







(** ** Environments, servers and worlds of the examples *)

(** The environment of the scenario of C7. *)
Definition env_url : gmap string string :=
  {[ "DATABASE_URL" := "postgresql://u:p@localhost:5555/taskdb" ]}.

(** An environment whose [DATABASE_URL] names another store. *)
Definition env_mysql : gmap string string :=
  {[ "DATABASE_URL" := "mysql://u:p@localhost:3306/taskdb" ]}.

(** The four discrete variables, and [DATABASE_URL] set to nothing. *)
Definition env_blank_url : gmap string string :=
  {[ "DATABASE_URL" := EmptyString; "DB_NAME" := "taskdb"; "DB_USER" := "u";
     "DB_PASSWORD" := "p"; "DB_HOST" := "localhost" ]}.

(** The four discrete variables and a port that is not a number. *)
Definition env_bad_port : gmap string string :=
  {[ "DB_NAME" := "taskdb"; "DB_USER" := "u"; "DB_PASSWORD" := "p";
     "DB_HOST" := "localhost"; "DB_PORT" := "abc" ]}.

(** Only two of the four discrete variables. *)
Definition env_partial : gmap string string :=
  {[ "DB_NAME" := "taskdb"; "DB_HOST" := "localhost" ]}.

(** The four discrete variables and no port. *)
Definition env_discrete : gmap string string :=
  {[ "DB_NAME" := "taskdb"; "DB_USER" := "u"; "DB_PASSWORD" := "p";
     "DB_HOST" := "localhost" ]}.

(** The five variables [db_create_tables.py] reads. *)
Definition env_bootstrap : gmap string string :=
  {[ "DB_NAME" := "taskdb"; "DB_USER" := "u"; "DB_PASSWORD" := "p";
     "DB_HOST" := "localhost"; "DB_PORT" := "5432" ]}.

(** No bracketed host is rejected. *)
Definition any_host : string -> option string := fun _ => None.

(** The email of the call numbered [n]: [n] letters before the domain, so
    that no two calls agree. *)
Fixpoint tally (n : nat) : string :=
  match n with
  | O => "@example.com"
  | S k => String "u" (tally k)
  end.

(** The server refuses every connection at once. *)
Definition refusing : Oracle :=
  mkOracle (fun _ => (0%N, Some (OperationalError "connection refused")))
    (fun _ => None) (fun _ => false) (fun _ => "Ann Lee") tally (fun _ => "Fix the login page.")
    (fun _ => "Lorem ipsum.") (fun n => n).

(** The server accepts at once and never fails. *)
Definition steady : Oracle :=
  mkOracle (fun _ => (0%N, None)) (fun _ => None) (fun _ => false)
    (fun _ => "Ann Lee") tally
    (fun _ => "Fix the login page.") (fun _ => "Lorem ipsum.") (fun n => n).

(** As [steady], but the link is lost at the third round trip. *)
Definition failing_third : Oracle :=
  mkOracle (fun _ => (0%N, None))
    (fun n => if (n =? 2)%nat
              then Some (OperationalError "server closed the connection unexpectedly")
              else None)
    (fun _ => true) (fun _ => "Ann Lee") tally (fun _ => "Fix the login page.")
    (fun _ => "Lorem ipsum.") (fun n => n).

(** As [steady], but the third round trip is refused by a server that has
    run out of space; the link holds. *)
Definition rejecting_third : Oracle :=
  mkOracle (fun _ => (0%N, None))
    (fun n => if (n =? 2)%nat
              then Some (OperationalError
                           "could not extend file: No space left on device")
              else None)
    (fun _ => false) (fun _ => "Ann Lee") tally
    (fun _ => "Fix the login page.") (fun _ => "Lorem ipsum.") (fun n => n).



(** A server on which no table exists. *)
Definition no_database : Pg.Database := Pg.mkDatabase None None None.

Definition no_users : Pg.Table Pg.UserRow := Pg.empty_table.
Definition no_statuses : Pg.Table Pg.StatusRow := Pg.empty_table.
Definition no_tasks : Pg.Table Pg.TaskRow := Pg.empty_table.

(** The three tables, all empty. *)
Definition bootstrapped : Pg.Database :=
  Pg.mkDatabase (Some no_users) (Some no_statuses) (Some no_tasks).

Definition one_user : Pg.Table Pg.UserRow :=
  Pg.mkTable [Pg.mkUser 1 "Ann Lee" "ann@example.com"] 1.

Definition three_statuses : Pg.Table Pg.StatusRow :=
  Pg.mkTable [Pg.mkStatus 1 "new"; Pg.mkStatus 2 "in progress";
              Pg.mkStatus 3 "completed"] 3.

(** A world at time zero, nothing done yet, no connection. *)
Definition fresh_world (env : gmap string string) (db : Pg.Database) (o : Oracle)
  : World :=
  mkWorld env 0 0 0 db None false 0 ∅ 0 [] o.

(** A world whose connection has just been opened on [db]. *)
Definition in_session (db : Pg.Database) (o : Oracle) : World :=
  mkWorld ∅ 0 1 0 db (Some (mkSession false false db false)) false 0 ∅ 0 [] o.

(** ** Vocabulary of the further properties *)

(** The records [get_connection] logs for [n] attempts, the first one
    numbered [from] by the oracle and [attempt + 1] by the loop: a warning
    for an attempt that fails, an info line for one that succeeds. *)
Fixpoint retry_records (o : Oracle) (from : nat) (attempt : Z) (n : nat)
  : list LogRecord :=
  match n with
  | O => []
  | S n' =>
      match snd (connect_outcome o from) with
      | Some e =>
          mkLog WARNING "DB not ready (attempt %d): %s"
            [ArgInt (attempt + 1); ArgExc e] false
      | None =>
          mkLog INFO "Connected to DB on attempt %d." [ArgInt (attempt + 1)] false
      end :: retry_records o (S from) (attempt + 1) n'
  end.

(** The only thing a connection attempt leaves alone is what lies beyond
    the link: round trips, generators, the committed database. *)
Definition same_backend (w w' : World) : Prop :=
  environ w' = environ w /\ round_trips w' = round_trips w
  /\ server w' = server w /\ fake_calls w' = fake_calls w
  /\ unique_seen w' = unique_seen w /\ random_calls w' = random_calls w
  /\ oracle w' = oracle w.

(** The two records [main] of the seeder logs when it ends on [exc]. *)
Definition failure_records (exc : Exception) : list LogRecord :=
  [mkLog ERROR "Seeding failed: %s" [ArgExc exc] true;
   mkLog INFO "DB connection closed." [] false].


(** The exception [fake.unique] raises when it gives up. *)
Definition gave_up : Exception :=
  UniquenessException "Got duplicated values after 1,000 iterations.".


(** The variables [get_db_connection] reads, in the order it reads them. *)
Definition bootstrap_variables : list string :=
  ["DB_NAME"; "DB_USER"; "DB_PASSWORD"; "DB_HOST"; "DB_PORT"].

(** The first variable of [l] that the environment does not hold. *)
Definition first_absent (env : gmap string string) (l : list string)
  : option string :=
  List.find (fun k => bool_decide (env !! k = None)) l.

(** The record [main] of the bootstrap script logs when it ends on [exc]. *)
Definition bootstrap_error (exc : Exception) : LogRecord :=
  mkLog ERROR "Failed to create tables: %s" [ArgExc exc] false.

(** The three tables exist. *)
Definition has_tables (db : Pg.Database) : Prop :=
  Pg.users db <> None /\ Pg.status db <> None /\ Pg.tasks db <> None.

(** As [steady], but the email provider knows one address only. *)
Definition stuck : Oracle :=
  mkOracle (fun _ => (0%N, None)) (fun _ => None) (fun _ => false)
    (fun _ => "Ann Lee")
    (fun _ => "a@example.com") (fun _ => "Fix the login page.")
    (fun _ => "Lorem ipsum.") (fun n => n).

(** * Proofs *)

(** ** Configuration Resolver *)

(** The list [missing] holds exactly the required variables that are unset. *)
Lemma elem_of_missing env k :
  k ∈ Seed.missing env <-> k ∈ Seed.required /\ unset env k.
Proof.
  unfold Seed.missing, unset. rewrite list_elem_of_In, filter_In, <- list_elem_of_In.
  rewrite negb_true_iff. reflexivity.
Qed.

Lemma missing_nil env :
  Seed.missing env = [] <-> forall k, k ∈ Seed.required -> ~ unset env k.
Proof.
  split.
  - intros Hnil k Hk Hu.
    assert (Hin : k ∈ Seed.missing env) by (apply elem_of_missing; auto).
    rewrite Hnil in Hin. inversion Hin.
  - intros H. destruct (Seed.missing env) as [|k l] eqn:E; [reflexivity|].
    assert (Hin : k ∈ Seed.missing env) by (rewrite E; left).
    apply elem_of_missing in Hin as [Hk Hu]. destruct (H k Hk Hu).
Qed.

(** Without a usable [DATABASE_URL] the resolver runs its second half. *)
Lemma parse_db_env_discrete chk env :
  truthy (os.getenv env "DATABASE_URL") = false ->
  Seed._parse_db_env chk env =
    match Seed.missing env with
    | _ :: _ =>
        inl (EnvironmentError
               ("Missing required env vars: " ++ PyStr.join ", " (Seed.missing env)
                ++ " (or provide DATABASE_URL)"))
    | [] =>
        match PyStr.int (os.getenv_default env "DB_PORT" "5432") with
        | None => inl (Seed.invalid_literal (os.getenv_default env "DB_PORT" "5432"))
        | Some p =>
            inr (Seed.mkCfg (os.getenv env "DB_NAME") (os.getenv env "DB_USER")
                   (os.getenv env "DB_PASSWORD") (os.getenv env "DB_HOST") p)
        end
    end.
Proof. intros H. unfold Seed._parse_db_env. rewrite H. reflexivity. Qed.

(** C6, as amended.  With [DATABASE_URL] absent or empty, the resolver
    raises the missing-variables error exactly when one of [DB_NAME],
    [DB_USER], [DB_PASSWORD], [DB_HOST] is absent or empty, and the names it
    lists are exactly those variables.  When none is, the port is 5432 if
    [DB_PORT] is absent, and otherwise what [int] makes of [DB_PORT]: the
    call fails with [ValueError] when that text is not an integer. *)
Theorem parse_db_env_discrete_variables chk env :
  unset env "DATABASE_URL" ->
  ((exists k, k ∈ Seed.required /\ unset env k) <->
   exists names,
     Seed._parse_db_env chk env =
       inl (EnvironmentError
              ("Missing required env vars: " ++ PyStr.join ", " names
               ++ " (or provide DATABASE_URL)"))
     /\ forall k, k ∈ names <-> k ∈ Seed.required /\ unset env k)
  /\ ((forall k, k ∈ Seed.required -> ~ unset env k) ->
      let cfg := Seed.mkCfg (env !! "DB_NAME") (env !! "DB_USER")
                   (env !! "DB_PASSWORD") (env !! "DB_HOST") in
      match env !! "DB_PORT" with
      | None => Seed._parse_db_env chk env = inr (cfg 5432)
      | Some text =>
          Seed._parse_db_env chk env =
            match PyStr.int text with
            | Some p => inr (cfg p)
            | None => inl (Seed.invalid_literal text)
            end
      end).
Proof.
  intros Hurl. rewrite (parse_db_env_discrete chk env Hurl). split.
  - split.
    + intros (k & Hk & Hu).
      assert (Hin : k ∈ Seed.missing env) by (apply elem_of_missing; auto).
      destruct (Seed.missing env) as [|k0 l] eqn:E; [inversion Hin|].
      exists (k0 :: l). split; [reflexivity|].
      intros k'. rewrite <- E. apply elem_of_missing.
    + intros (names & Heq & Hnames).
      destruct (Seed.missing env) as [|k0 l] eqn:E.
      * destruct (PyStr.int _); [discriminate Heq|].
        unfold Seed.invalid_literal in Heq.
        destruct (PyStr.over_limit _); discriminate Heq.
      * exists k0. apply elem_of_missing. rewrite E. left.
  - intros Hall. apply missing_nil in Hall. rewrite Hall.
    unfold os.getenv_default, os.getenv.
    destruct (env !! "DB_PORT") as [text|]; simpl; reflexivity.
Qed.

(** C7, as amended.  The URL of the scenario resolves to the record of the
    scenario.  A non-empty [DATABASE_URL] that [urlparse] accepts and whose
    scheme is not one of the three accepted ones makes the resolver raise
    the [ValueError] that names this scheme. *)
Theorem parse_db_env_database_url chk env url :
  env !! "DATABASE_URL" = Some url ->
  url <> EmptyString ->
  (url = "postgresql://u:p@localhost:5555/taskdb" ->
   Seed._parse_db_env chk env =
     inr (Seed.mkCfg (Some "taskdb") (Some "u") (Some "p") (Some "localhost") 5555))
  /\ (forall parsed,
        UrlLib.urlparse chk url = inr parsed ->
        UrlLib.scheme parsed ∉ Seed.accepted_schemes ->
        Seed._parse_db_env chk env =
          inl (ValueError ("Unsupported scheme in DATABASE_URL: "
                           ++ UrlLib.scheme parsed))).
Proof.
  intros Hurl Hne. unfold Seed._parse_db_env, os.getenv. rewrite Hurl.
  assert (Ht : truthy (Some url) = true) by (destruct url; [congruence | reflexivity]).
  rewrite Ht. simpl default. split.
  - intros ->. vm_compute. reflexivity.
  - intros parsed Hp Hs. rewrite Hp.
    rewrite bool_decide_eq_false_2 by exact Hs. reflexivity.
Qed.

(** C6 fails as stated: with [DATABASE_URL] absent and the four required
    variables present (and not empty), the resolver still fails when
    [DB_PORT] is not a number, and the error is not the list of missing
    names. *)
Lemma parse_db_env_bad_port :
  env_bad_port !! "DATABASE_URL" = None
  /\ env_bad_port !! "DB_NAME" = Some "taskdb"
  /\ env_bad_port !! "DB_USER" = Some "u"
  /\ env_bad_port !! "DB_PASSWORD" = Some "p"
  /\ env_bad_port !! "DB_HOST" = Some "localhost"
  /\ Seed._parse_db_env any_host env_bad_port =
       inl (ValueError "invalid literal for int() with base 10: 'abc'").
Proof. repeat split; vm_compute; reflexivity. Qed.

(** The amended C6 at work: two variables missing, both listed; all four
    present, the port defaults. *)
Lemma parse_db_env_discrete_variables_witness :
  (exists names,
     Seed._parse_db_env any_host env_partial =
       inl (EnvironmentError
              ("Missing required env vars: " ++ PyStr.join ", " names
               ++ " (or provide DATABASE_URL)"))
     /\ forall k, k ∈ names <-> k ∈ Seed.required /\ unset env_partial k)
  /\ Seed._parse_db_env any_host env_discrete =
       inr (Seed.mkCfg (Some "taskdb") (Some "u") (Some "p") (Some "localhost") 5432).
Proof.
  split.
  - apply (parse_db_env_discrete_variables any_host env_partial).
    + vm_compute; reflexivity.
    + exists "DB_USER". split; [|vm_compute; reflexivity].
      apply list_elem_of_In. simpl. auto.
  - apply (parse_db_env_discrete_variables any_host env_discrete).
    + vm_compute; reflexivity.
    + intros k Hk Hu. apply list_elem_of_In in Hk. simpl in Hk.
      destruct Hk as [<- | [<- | [<- | [<- | []]]]]; vm_compute in Hu; discriminate.
Defined.

(** C7 fails as stated: an empty [DATABASE_URL] has the scheme [''], which
    is not an accepted one, and yet the resolver does not fail: it takes the
    discrete variables. *)
Lemma parse_db_env_blank_url :
  env_blank_url !! "DATABASE_URL" = Some EmptyString
  /\ (exists parsed,
        UrlLib.urlparse any_host EmptyString = inr parsed
        /\ UrlLib.scheme parsed = EmptyString
        /\ UrlLib.scheme parsed ∉ Seed.accepted_schemes)
  /\ Seed._parse_db_env any_host env_blank_url =
       inr (Seed.mkCfg (Some "taskdb") (Some "u") (Some "p") (Some "localhost") 5432).
Proof.
  split; [vm_compute; reflexivity|]. split; [|vm_compute; reflexivity].
  eexists. split; [vm_compute; reflexivity|]. split; [reflexivity|].
  simpl. intros H. apply list_elem_of_In in H. simpl in H. intuition discriminate.
Qed.

(** A second way for C7 to fail as stated: the scheme [http] is not
    accepted, but the error is the one [urlparse] raises for the unmatched
    bracket, which does not name the scheme. *)
Example parse_db_env_unmatched_bracket :
  Seed._parse_db_env any_host {[ "DATABASE_URL" := "http://[db/taskdb" ]} =
    inl (ValueError "Invalid IPv6 URL").
Proof. vm_compute. reflexivity. Qed.

(** [int] skips the white space of C around the literal, and nothing
    else. *)
Example int_white_space :
  PyStr.int " 5432 " = Some 5432
  /\ PyStr.int (String (ascii_of_nat 28) "5432") = None
  /\ PyStr.int "5_432" = Some 5432.
Proof. repeat split. Qed.

(** The amended C7 at work. *)
Lemma parse_db_env_database_url_witness :
  Seed._parse_db_env any_host env_url =
    inr (Seed.mkCfg (Some "taskdb") (Some "u") (Some "p") (Some "localhost") 5555)
  /\ Seed._parse_db_env any_host env_mysql =
       inl (ValueError "Unsupported scheme in DATABASE_URL: mysql").
Proof.
  split.
  - refine (proj1 (parse_db_env_database_url any_host env_url _ _ _) eq_refl);
      [vm_compute; reflexivity | discriminate].
  - refine (proj2 (parse_db_env_database_url any_host env_mysql
                     "mysql://u:p@localhost:3306/taskdb" _ _)
              (UrlLib.mkParseResult "mysql" "u:p@localhost:3306" "/taskdb"
                 EmptyString EmptyString EmptyString) _ _).
    + vm_compute; reflexivity.
    + discriminate.
    + vm_compute; reflexivity.
    + simpl. intros H. apply list_elem_of_In in H. simpl in H. intuition discriminate.
Defined.

(** ** Connection Manager *)

(** One pass through the [try] statement: the oracle decides, the handler
    never raises, and a failure costs the attempt and the sleep. *)
Lemma attempt_once_cases cfg a w :
  let '(d, out) := connect_outcome (oracle w) (connects w) in
  exists w1,
    Seed.attempt_once cfg a w =
      (inr match out with Some e => inl e | None => inr the_connection end, w1)
    /\ oracle w1 = oracle w /\ server w1 = server w /\ environ w1 = environ w
    /\ connects w1 = S (connects w)
    /\ clock w1 = clock w + Z.of_N d + (match out with Some _ => 1500 | None => 0 end)
    /\ session w1 = match out with
                     | Some _ => session w
                     | None => Some (mkSession false false (server w) false)
                     end.
Proof.
  unfold Seed.attempt_once, try_except, bind, psycopg2.connect,
    psycopg2.set_autocommit, psycopg2.opened, logging.info, logging.warning,
    logging.log, time.sleep, ret.
  destruct (connect_outcome (oracle w) (connects w)) as [d [e|]]; simpl;
   eexists; (split; [reflexivity|]); simpl; repeat split; lia.
Qed.

Lemma retry_time_snoc o from n :
  retry_time o from (S n) =
  retry_time o from n + Z.of_N (fst (connect_outcome o (from + n))) + 1500.
Proof.
  revert from. induction n as [|n IH]; intros from.
  - simpl. rewrite Nat.add_0_r. lia.
  - change (retry_time o from (S (S n))) with
      (Z.of_N (fst (connect_outcome o from)) + 1500 + retry_time o (S from) (S n)).
    rewrite IH. simpl. replace (S (from + n)) with (from + S n)%nat by lia. lia.
Qed.

(** The loop, one iteration unfolded. *)
Lemma retry_unfold cfg deadline attempt last_err w :
  Seed.retry cfg deadline attempt last_err w =
    if (clock w <? deadline)%Z then
      match Seed.attempt_once cfg (attempt + 1) w with
      | (inr (inr conn), w1) => (inr conn, w1)
      | (inr (inl exc), w1) => Seed.retry cfg deadline (attempt + 1) (Some exc) w1
      | (inl e, w1) => (inl e, w1)
      end
    else
      (inl (ConnectionError ("Could not connect to DB within timeout: "
                             ++ str_opt_exc last_err)), w).
Proof.
  funelim (Seed.retry cfg deadline attempt last_err w);
    rewrite ?Hlt, ?Hrun; reflexivity.
Qed.

(** What the loop has done when it ends, by induction on its calls. *)
Lemma retry_outcome cfg deadline attempt last_err w :
  let '(r, w') := Seed.retry cfg deadline attempt last_err w in
  oracle w' = oracle w /\ server w' = server w /\ environ w' = environ w
  /\ (connects w <= connects w')%nat
  /\ match r with
     | inr conn => session w' = Some (mkSession false false (server w) false)
     | inl e =>
         let n := (connects w' - connects w)%nat in
         deadline <= clock w'
         /\ session w' = session w
         /\ (forall i, (connects w <= i < connects w')%nat ->
                       snd (connect_outcome (oracle w) i) <> None)
         /\ clock w' = clock w + retry_time (oracle w) (connects w) n
         /\ e = ConnectionError
                  ("Could not connect to DB within timeout: "
                   ++ str_opt_exc (last_failure (oracle w) (connects w) n last_err))
     end.
Proof.
  funelim (Seed.retry cfg deadline attempt last_err w).
  - pose proof (proj1 (Z.ltb_ge _ _) Hlt) as Hge. rewrite Nat.sub_diag.
    simpl. repeat split; try lia.
  - exfalso. clear H H0. pose proof (attempt_once_cases cfg (attempt + 1) w) as Hc.
    destruct (connect_outcome (oracle w) (connects w)) as [d [err|]];
      destruct Hc as (w1' & Heq & _); rewrite Hrun in Heq; discriminate.
  - clear H0 H1 Heqcall. pose proof (attempt_once_cases cfg (attempt + 1) w) as Hc.
    destruct (connect_outcome (oracle w) (connects w)) as [d [err|]] eqn:Eo;
      destruct Hc as (w1' & Heq & Ho & Hs & He & Hn & Hk & Hse);
      rewrite Hrun in Heq; inversion Heq; subst.
    destruct (Seed.retry cfg deadline (attempt + 1) (Some err) w1') as [r w'].
    destruct H as (Ho' & Hs' & He' & Hle & Hr).
    repeat split; try congruence; try lia.
    destruct r as [e'|conn]; [|congruence].
    destruct Hr as (Hd & Hss & Hall & Hclk & Hmsg). cbv zeta.
    rewrite Ho in *. rewrite Hn in *.
    replace (connects w' - connects w)%nat with (S (connects w' - S (connects w))) by lia.
    repeat split.
    + exact Hd.
    + congruence.
    + intros i Hi. destruct (decide (i = connects w)) as [->|Hne].
      * rewrite Eo. discriminate.
      * apply Hall. lia.
    + rewrite Hclk, Hk. simpl retry_time. rewrite Eo. simpl. lia.
    + rewrite Hmsg. unfold last_failure.
      destruct (connects w' - S (connects w))%nat as [|k] eqn:Ek.
      * rewrite Nat.add_0_r, Eo. reflexivity.
      * replace (S (connects w) + k)%nat with (connects w + S k)%nat by lia. reflexivity.
  - clear H H0. pose proof (attempt_once_cases cfg (attempt + 1) w) as Hc.
    destruct (connect_outcome (oracle w) (connects w)) as [d [err|]];
      destruct Hc as (w1' & Heq & Ho & Hs & He & Hn & Hk & Hse);
      rewrite Hrun in Heq; inversion Heq; subst.
    repeat split; try assumption; lia.
Qed.

(** C8.  Once the configuration is resolved, a call of [get_connection]
    ends in one of two ways.  It returns a connection that is open and has
    autocommit off.  Or it raises [ConnectionError]: then the deadline has
    passed, every attempt made has failed and was followed by the sleep of
    1.5 s, and the message carries the failure of the last attempt. *)
Theorem get_connection_outcome chk max_wait w cfg :
  Seed._parse_db_env chk (environ w) = inr cfg ->
  let '(r, w') := Seed.get_connection chk max_wait w in
  let n := (connects w' - connects w)%nat in
  match r with
  | inr conn =>
      exists s, session w' = Some s /\ closed s = false /\ autocommit s = false
  | inl e =>
      clock w + 1000 * max_wait <= clock w'
      /\ (forall i, (connects w <= i < connects w')%nat ->
                    snd (connect_outcome (oracle w) i) <> None)
      /\ clock w' = clock w + retry_time (oracle w) (connects w) n
      /\ e = ConnectionError
               ("Could not connect to DB within timeout: "
                ++ str_opt_exc (last_failure (oracle w) (connects w) n None))
  end.
Proof.
  intros Hcfg. unfold Seed.get_connection, bind, reading, time.time. rewrite Hcfg.
  pose proof (retry_outcome cfg (clock w + 1000 * max_wait) 0 None w) as H.
  destruct (Seed.retry cfg (clock w + 1000 * max_wait) 0 None w) as [[e|conn] w'].
  - destruct H as (_ & _ & _ & _ & Hd & _ & Hall & Hclk & Hmsg). auto.
  - destruct H as (_ & _ & _ & _ & Hs). eexists. split; [exact Hs|]. auto.
Qed.

(** C8 at work: the default wait of 30 s against a server that refuses at
    once gives twenty attempts, 1.5 s apart, and the error of the last. *)
Lemma get_connection_outcome_witness :
  exists w',
    Seed.get_connection any_host 30 (fresh_world env_url no_database refusing) =
      (inl (ConnectionError
              "Could not connect to DB within timeout: connection refused"), w')
    /\ connects w' = 20%nat
    /\ clock w' = 0 + retry_time refusing 0 20.
Proof.
  pose proof (get_connection_outcome any_host 30
                (fresh_world env_url no_database refusing)
                (Seed.mkCfg (Some "taskdb") (Some "u") (Some "p") (Some "localhost") 5555)
                ltac:(vm_compute; reflexivity)) as H.
  destruct (Seed.get_connection any_host 30 (fresh_world env_url no_database refusing))
    as [r w'] eqn:E.
  assert (Hr : r = inl (ConnectionError
                          "Could not connect to DB within timeout: connection refused")
               /\ connects w' = 20%nat).
  { vm_compute in E. inversion E. split; reflexivity. }
  destruct Hr as [-> Hn]. exists w'. rewrite Hn in H.
  destruct H as (_ & _ & Hclk & _). repeat split; [exact Hn | exact Hclk].
Defined.

(** C10.  Once the configuration is resolved, a call of [get_connection]
    with a wait of zero or less raises [ConnectionError] at once: the world
    is left as it was, so no attempt was made, and the failure the message
    carries is [None]. *)
Theorem get_connection_no_wait chk max_wait w cfg :
  Seed._parse_db_env chk (environ w) = inr cfg ->
  max_wait <= 0 ->
  Seed.get_connection chk max_wait w =
    (inl (ConnectionError "Could not connect to DB within timeout: None"), w).
Proof.
  intros Hcfg Hle. unfold Seed.get_connection, bind, reading, time.time. rewrite Hcfg.
  rewrite retry_unfold.
  replace (clock w <? clock w + 1000 * max_wait)%Z with false
    by (symmetry; apply Z.ltb_ge; lia).
  reflexivity.
Qed.

Lemma get_connection_no_wait_witness :
  Seed.get_connection any_host 0 (fresh_world env_url no_database refusing) =
    (inl (ConnectionError "Could not connect to DB within timeout: None"),
     fresh_world env_url no_database refusing).
Proof.
  apply (get_connection_no_wait any_host 0 _
           (Seed.mkCfg (Some "taskdb") (Some "u") (Some "p") (Some "localhost") 5555)).
  - vm_compute; reflexivity.
  - lia.
Defined.

(** ** Transactions: what a seeding step cannot do *)

Lemma data_keep_sequences c v : Pg.data (Pg.keep_sequences c v) = Pg.data c.
Proof. destruct c as [[u|] [s|] [t|]]; reflexivity. Qed.

Lemma link_lost_later w w1 w2 :
  link_lost w w1 -> (round_trips w1 <= round_trips w2)%nat -> link_lost w w2.
Proof. intros (n & Hn & Hf & Hb) Hle. exists n. split; [lia | auto]. Qed.

Lemma link_lost_earlier w w1 w2 :
  oracle w1 = oracle w -> (round_trips w <= round_trips w1)%nat ->
  link_lost w1 w2 -> link_lost w w2.
Proof.
  intros Ho Hle (n & Hn & Hf & Hb). exists n. rewrite <- Ho. split; [lia | auto].
Qed.

Lemma link_lost_now w w' :
  round_trips w' = S (round_trips w) ->
  server_fault (oracle w) (round_trips w) <> None ->
  breaks_link (oracle w) (round_trips w) = true ->
  link_lost w w'.
Proof. intros Hr Hf Hb. exists (round_trips w). split; [lia | auto]. Qed.

(** A computation that leaves the connection and the server alone. *)
Lemma keeps_local {A} (m : M A) :
  (forall w, session (snd (m w)) = session w /\ server (snd (m w)) = server w
             /\ oracle (snd (m w)) = oracle w
             /\ round_trips (snd (m w)) = round_trips w) ->
  never_commits m.
Proof.
  intros H w Hm. destruct (H w) as (Hs & Hsv & Ho & Hr). cbv zeta.
  unfold manual_commit, txn_open in *. rewrite Hs, Hsv, Ho, Hr.
  repeat split; auto; try lia.
Qed.

Lemma keeps_ret {A} (a : A) : never_commits (ret a).
Proof. apply keeps_local. intros w. repeat split. Qed.

Lemma keeps_raise {A} e : never_commits (@raise A e).
Proof. apply keeps_local. intros w. repeat split. Qed.

(** The use of a connection that is closed, or was never opened, raises and
    changes nothing. *)
Ltac already_closed A w Hm :=
  let H := fresh in
  pose proof (@keeps_raise A psycopg2.already_closed w Hm) as H;
  cbv zeta in H; simpl in H |- *;
  destruct H as (?&?&?&?&?&?); repeat split; auto;
  first [ intros [? ?]; discriminate | intros _; eauto ].

(** [never_commits] is closed under sequencing, loops and comprehensions. *)
Lemma keeps_bind {A B} (m : M A) (k : A -> M B) :
  never_commits m -> (forall a, never_commits (k a)) -> never_commits (bind m k).
Proof.
  intros Hm Hk w H. unfold bind. specialize (Hm w H). cbv zeta in Hm.
  destruct (m w) as [[e|a] w1]; simpl in *; [exact Hm|].
  destruct Hm as (H1 & Hd1 & Ho1 & Hr1 & Hs1 & Ht1).
  specialize (Hk a w1 H1). cbv zeta in Hk.
  destruct Hk as (H2 & Hd2 & Ho2 & Hr2 & Hs2 & Ht2).
  split; [exact H2|]. split; [congruence|]. split; [congruence|].
  split; [lia|]. split; [auto|].
  intros Hopen. destruct (Ht1 Hopen) as [Hopen1|Hlost].
  - destruct (Ht2 Hopen1) as [Hopen2|Hlost]; [left; exact Hopen2|].
    right. eapply link_lost_earlier; eassumption.
  - right. eapply link_lost_later; eassumption.
Qed.

Lemma keeps_for_each {A} (l : list A) (body : A -> M unit) :
  (forall x, never_commits (body x)) -> never_commits (for_each l body).
Proof.
  intros Hb. induction l as [|x l IH]; simpl.
  - apply keeps_ret.
  - apply keeps_bind; [apply Hb | intros _; exact IH].
Qed.

Lemma keeps_comprehension {A} n (f : M A) :
  never_commits f -> never_commits (comprehension n f).
Proof.
  intros Hf. induction n as [|n IH]; simpl.
  - apply keeps_ret.
  - apply keeps_bind; [exact Hf | intros x].
    apply keeps_bind; [exact IH | intros r; apply keeps_ret].
Qed.

Lemma keeps_log l tb fmt a : never_commits (logging.log l tb fmt a).
Proof. apply keeps_local. intros w. repeat split. Qed.

Lemma keeps_cursor conn : never_commits (psycopg2.cursor conn).
Proof.
  apply keeps_local. intros w. unfold psycopg2.cursor, psycopg2.opened, bind, ret.
  destruct (session w) as [s|] eqn:Hs; [destruct (closed s)|]; simpl;
    rewrite ?Hs; repeat split.
Qed.

Ltac manual Ha :=
  let s' := fresh in let H' := fresh in
  intros s' H'; simpl in H'; inversion H'; subst; simpl;
  first [reflexivity | exact Ha | congruence].

(** With autocommit off a statement only touches the working database;
    when the link is lost the server drops the transaction. *)
Lemma keeps_execute cur qs : never_commits (psycopg2.execute cur qs).
Proof.
  intros w Hm. cbv zeta. unfold psycopg2.execute, psycopg2.dropped, psycopg2.opened, bind.
  destruct (session w) as [s|] eqn:Hs.
  2:{ already_closed (list Z) w Hm. }
  pose proof (Hm s Hs) as Ha.
  destruct (closed s) eqn:Hc.
  { already_closed (list Z) w Hm. }
  rewrite Ha. simpl.
  destruct (server_fault (oracle w) (round_trips w)) as [e|] eqn:Ef.
  - destruct (breaks_link (oracle w) (round_trips w)) eqn:Eb; simpl.
    + split; [manual Ha|].
      split; [apply data_keep_sequences|]. split; [reflexivity|]. split; [lia|].
      split; [eauto|]. intros _. right.
      apply link_lost_now; [reflexivity | rewrite Ef; discriminate | exact Eb].
    + split; [manual Ha|].
      repeat split; eauto. left. eexists. split; [reflexivity|]. auto.
  - destruct (aborted s) eqn:Eab; simpl.
    { unfold manual_commit, txn_open. simpl. rewrite Hs.
      repeat split; eauto. manual Ha. }
    destruct (Pg.run_all qs (working s) []) as [e|[db res]]; simpl.
    + split; [manual Ha|].
      repeat split; eauto. left. eexists. split; [reflexivity|]. auto.
    + split; [manual Ha|].
      repeat split; eauto. left. eexists. split; [reflexivity|]. auto.
Qed.

Lemma keeps_execute_batch {A} cur (sql : A -> Pg.Sql) l n :
  never_commits (psycopg2.execute_batch cur sql l n).
Proof.
  apply keeps_for_each. intros page.
  apply keeps_bind; [apply keeps_execute | intros; apply keeps_ret].
Qed.

Lemma keeps_provider f : never_commits (fake.provider f).
Proof. apply keeps_local. intros w. repeat split. Qed.

Lemma keeps_unique_attempts n f r :
  never_commits f -> never_commits (fake.unique_attempts n f r).
Proof.
  intros Hf. revert r. induction n as [|n IH]; intros r; simpl.
  - apply keeps_raise.
  - assert (Hk : never_commits (bind f (fun v' => fake.unique_attempts n f (Some v')))).
    { apply keeps_bind; [exact Hf | intros; apply IH]. }
    intros w H. destruct r as [v|]; [|apply Hk; exact H].
    destruct (bool_decide (v ∈ unique_seen w)); [apply Hk; exact H|].
    apply (keeps_ret v w H).
Qed.

Lemma keeps_unique_email : never_commits fake.unique_email.
Proof.
  apply keeps_bind; [apply keeps_unique_attempts, keeps_provider|].
  intros v. apply keeps_local. intros w. repeat split.
Qed.

Lemma keeps_unique_clear : never_commits fake.unique_clear.
Proof. apply keeps_local. intros w. repeat split. Qed.

Lemma keeps_choice l : never_commits (random.choice l).
Proof.
  apply keeps_local. intros w. unfold random.choice. destruct l; repeat split.
Qed.

Lemma keeps_seed_statuses conn : never_commits (Seed.seed_statuses conn).
Proof.
  apply keeps_bind; [|intros; apply keeps_log].
  apply keeps_bind; [apply keeps_cursor | intros; apply keeps_execute_batch].
Qed.

Lemma keeps_seed_users conn count : never_commits (Seed.seed_users conn count).
Proof.
  apply keeps_bind.
  - apply keeps_comprehension. apply keeps_bind; [apply keeps_provider | intros n].
    apply keeps_bind; [apply keeps_unique_email | intros; apply keeps_ret].
  - intros users. apply keeps_bind; [apply keeps_unique_clear | intros _].
    apply keeps_bind; [|intros; apply keeps_log].
    apply keeps_bind; [apply keeps_cursor | intros; apply keeps_execute_batch].
Qed.

Lemma keeps_seed_tasks conn count : never_commits (Seed.seed_tasks conn count).
Proof.
  apply keeps_bind.
  - apply keeps_bind; [apply keeps_cursor | intros cur].
    apply keeps_bind; [apply keeps_execute | intros u].
    apply keeps_bind; [apply keeps_execute | intros s; apply keeps_ret].
  - intros [user_ids status_ids].
    destruct (Seed.is_empty user_ids || Seed.is_empty status_ids); [apply keeps_log|].
    apply keeps_bind.
    + apply keeps_comprehension.
      repeat (apply keeps_bind; [first [apply keeps_provider | apply keeps_choice] | intros ?]).
      apply keeps_ret.
    + intros tasks. apply keeps_bind; [|intros; apply keeps_log].
      apply keeps_bind; [apply keeps_cursor | intros; apply keeps_execute_batch].
Qed.


(** [rollback] commits nothing either.  On an open connection it can only
    fail on its round trip, and once it has returned no transaction is
    open. *)
Lemma keeps_rollback conn : never_commits (psycopg2.rollback conn).
Proof.
  intros w Hm. cbv zeta. unfold psycopg2.rollback, psycopg2.dropped, psycopg2.opened, bind.
  destruct (session w) as [s|] eqn:Hs.
  2:{ already_closed unit w Hm. }
  pose proof (Hm s Hs) as Ha.
  destruct (closed s) eqn:Hc.
  { already_closed unit w Hm. }
  destruct (begun w) eqn:Eb.
  2:{ simpl. repeat split; auto; try lia. }
  destruct (server_fault (oracle w) (round_trips w)) as [e|] eqn:Ef.
  - destruct (breaks_link (oracle w) (round_trips w)) eqn:El; simpl.
    + split; [manual Ha|].
      split; [apply data_keep_sequences|]. split; [reflexivity|]. split; [lia|].
      split; [eauto|]. intros _. right.
      apply link_lost_now; [reflexivity | rewrite Ef; discriminate | exact El].
    + unfold manual_commit, txn_open. simpl. rewrite Hs.
      repeat split; eauto. manual Ha.
  - simpl. split; [manual Ha|].
    split; [apply data_keep_sequences|]. repeat split; eauto.
    left. eexists. split; [reflexivity|]. auto.
Qed.





Lemma txn_open_manual w : txn_open w -> manual_commit w.
Proof. intros (s & Hs & _ & Ha) s' Hs'. congruence. Qed.


(** ** A connection with no transaction open

    Between transactions the connection sees the committed database: every
    operation of the driver keeps it so, and a [commit] or a [rollback]
    sent then changes nothing. *)

Lemma coherent_connect {K} (kw : K) w :
  coherent w -> coherent (snd (psycopg2.connect kw w)).
Proof.
  intros H. unfold psycopg2.connect.
  destruct (connect_outcome (oracle w) (connects w)) as [d [e|]]; simpl.
  - exact H.
  - intros _ s Hs. inversion Hs; subst. reflexivity.
Qed.

Lemma coherent_execute cur qs w :
  coherent w -> coherent (snd (psycopg2.execute cur qs w)).
Proof.
  intros H. unfold psycopg2.execute, psycopg2.dropped, psycopg2.opened, bind.
  destruct (session w) as [s|] eqn:Hs; [|exact H].
  destruct (closed s); [exact H|].
  destruct (server_fault (oracle w) (round_trips w)).
  { destruct (breaks_link (oracle w) (round_trips w)); intros Hb s' Hs'; simpl in *.
    - inversion Hs'; subst. reflexivity.
    - inversion Hs'; subst. simpl. apply orb_false_iff in Hb as [Hb _]. exact (H Hb s Hs). }
  destruct (aborted s).
  { intros Hb s' Hs'. simpl in *. apply orb_false_iff in Hb as [Hb _]. exact (H Hb s' Hs'). }
  destruct (Pg.run_all qs (working s) []) as [e|[db res]];
    destruct (autocommit s) eqn:Ha; intros Hb s' Hs'; simpl in *;
    try (apply orb_false_iff in Hb as [_ Hb]; discriminate);
    inversion Hs'; subst; reflexivity.
Qed.

Lemma coherent_commit conn w :
  coherent w -> coherent (snd (psycopg2.commit conn w)).
Proof.
  intros H. unfold psycopg2.commit, psycopg2.dropped, psycopg2.opened, bind.
  destruct (session w) as [s|] eqn:Hs; [|exact H].
  destruct (closed s); [exact H|].
  destruct (begun w) eqn:Eb.
  - destruct (server_fault (oracle w) (round_trips w)); [|destruct (aborted s)];
      intros _ s' Hs'; simpl in *; inversion Hs'; subst; reflexivity.
  - intros _ s' Hs'. simpl in *. congruence.
Qed.

Lemma coherent_rollback conn w :
  coherent w -> coherent (snd (psycopg2.rollback conn w)).
Proof.
  intros H. unfold psycopg2.rollback, psycopg2.dropped, psycopg2.opened, bind.
  destruct (session w) as [s|] eqn:Hs; [|exact H].
  destruct (closed s); [exact H|].
  destruct (begun w) eqn:Eb; [|exact H].
  destruct (server_fault (oracle w) (round_trips w)).
  - destruct (breaks_link (oracle w) (round_trips w)); intros Hb s' Hs'; simpl in *.
    + inversion Hs'; subst. reflexivity.
    + congruence.
  - intros _ s' Hs'. simpl in *. inversion Hs'; subst. reflexivity.
Qed.

Lemma coherent_close conn w :
  coherent w -> coherent (snd (psycopg2.close conn w)).
Proof.
  intros H. unfold psycopg2.close, psycopg2.dropped.
  destruct (session w) as [s|] eqn:Hs; [|exact H].
  destruct (closed s); [exact H|].
  intros _ s' Hs'. simpl in *. inversion Hs'; subst. reflexivity.
Qed.

(** Then a [commit] with no transaction open leaves the world as it is. *)
Lemma commit_idle conn w s :
  coherent w -> session w = Some s -> closed s = false -> begun w = false ->
  psycopg2.commit conn w = (inr tt, w).
Proof.
  intros H Hs Hc Hb. unfold psycopg2.commit, psycopg2.opened, bind.
  rewrite Hs, Hc, Hb, (H Hb s Hs). destruct w. reflexivity.
Qed.

Lemma rollback_idle conn w s :
  session w = Some s -> closed s = false -> begun w = false ->
  psycopg2.rollback conn w = (inr tt, w).
Proof.
  intros Hs Hc Hb. unfold psycopg2.rollback, psycopg2.opened, bind.
  rewrite Hs, Hc, Hb. reflexivity.
Qed.

(** ** The seeder's entry point when a step fails *)






(** ** Statements that succeed *)

Lemma same_client_refl w : same_client w w.
Proof. repeat split. Qed.

Lemma same_client_trans w1 w2 w3 :
  same_client w1 w2 -> same_client w2 w3 -> same_client w1 w3.
Proof.
  unfold same_client. intros H1 H2.
  destruct H1 as (?&?&?&?&?&?&?&?&?), H2 as (?&?&?&?&?&?&?&?&?).
  repeat split; congruence.
Qed.

Lemma fault_free_same w w' : same_client w w' -> fault_free w -> fault_free w'.
Proof. intros H Hf n. destruct H as (_&_&_&_&_&_&_&_&Ho). rewrite Ho. apply Hf. Qed.

Lemma cursor_ok conn w db :
  in_txn w db -> psycopg2.cursor conn w = (inr the_cursor, w).
Proof.
  intros H. unfold psycopg2.cursor, psycopg2.opened, bind, ret. rewrite H. reflexivity.
Qed.

(** A round trip that is not lost runs its statements on the working
    database. *)
Lemma execute_ok cur qs w db db' res :
  in_txn w db ->
  server_fault (oracle w) (round_trips w) = None ->
  Pg.run_all qs db [] = inr (db', res) ->
  exists w',
    psycopg2.execute cur qs w = (inr res, w')
    /\ in_txn w' db' /\ same_client w w' /\ round_trips w' = S (round_trips w).
Proof.
  intros H Hf Hr. unfold psycopg2.execute, psycopg2.opened, bind.
  rewrite H. simpl. rewrite Hf, Hr. eexists. split; [reflexivity|].
  repeat split.
Qed.

Lemma run_all_res qs : forall db r1 r2 db' x,
  Pg.run_all qs db r1 = inr (db', x) ->
  exists y, Pg.run_all qs db r2 = inr (db', y).
Proof.
  induction qs as [|q qs IH]; simpl; intros db r1 r2 db' x H.
  - inversion H; subst. eauto.
  - destruct (Pg.run q db) as [e|[db1 res1]]; [discriminate|]. eauto.
Qed.


Lemma for_each_cons {A} (x : A) l body w :
  for_each (x :: l) body w =
    match body x w with
    | (inl e, w') => (inl e, w')
    | (inr _, w') => for_each l body w'
    end.
Proof. reflexivity. Qed.

Lemma execute_page_ok cur qs w db db' res :
  in_txn w db ->
  server_fault (oracle w) (round_trips w) = None ->
  Pg.run_all qs db [] = inr (db', res) ->
  exists w',
    (let! _ := psycopg2.execute cur qs in ret tt) w = (inr tt, w')
    /\ in_txn w' db' /\ same_client w w'.
Proof.
  intros H Hf Hr. destruct (execute_ok cur qs w db db' res H Hf Hr)
    as (w' & He & Hin & Hs & _).
  exists w'. unfold bind. rewrite He. auto.
Qed.



(** ** Schema Bootstrapper *)

Lemma connect_opens {K} (kw : K) w conn w1 :
  psycopg2.connect kw w = (inr conn, w1) ->
  in_txn w1 (server w) /\ server w1 = server w /\ oracle w1 = oracle w
  /\ begun w1 = false /\ round_trips w1 = round_trips w.
Proof.
  unfold psycopg2.connect.
  destruct (connect_outcome (oracle w) (connects w)) as [d [e|]]; [discriminate|].
  intros H. inversion H; subst. repeat split.
Qed.

Lemma connect_fails {K} (kw : K) w e w1 :
  psycopg2.connect kw w = (inl e, w1) ->
  server w1 = server w /\ round_trips w1 = round_trips w.
Proof.
  unfold psycopg2.connect.
  destruct (connect_outcome (oracle w) (connects w)) as [d [e'|]]; [|discriminate].
  intros H. inversion H; subst. split; reflexivity.
Qed.

Lemma get_db_connection_opens w conn w1 :
  DbCreateTables.get_db_connection w = (inr conn, w1) ->
  in_txn w1 (server w) /\ server w1 = server w /\ oracle w1 = oracle w
  /\ begun w1 = false /\ round_trips w1 = round_trips w.
Proof.
  unfold DbCreateTables.get_db_connection, bind, reading.
  destruct (DbCreateTables.connection_kwargs (environ w)) as [e'|kw]; [discriminate|].
  apply connect_opens.
Qed.

Lemma get_db_connection_fails w e w1 :
  DbCreateTables.get_db_connection w = (inl e, w1) ->
  server w1 = server w /\ round_trips w1 = round_trips w.
Proof.
  unfold DbCreateTables.get_db_connection, bind, reading.
  destruct (DbCreateTables.connection_kwargs (environ w)) as [e'|kw].
  - intros H. inversion H; subst. split; reflexivity.
  - apply connect_fails.
Qed.

Lemma create_tables_unfold conn statements w :
  DbCreateTables.create_tables conn statements w =
    match psycopg2.cursor conn w with
    | (inl e, w1) => (inl e, w1)
    | (inr cur, w1) =>
        match for_each statements
                (fun ddl => let! _ := psycopg2.execute cur [ddl] in ret tt) w1 with
        | (inl e, w2) => (inl e, w2)
        | (inr _, w2) => psycopg2.commit conn w2
        end
    end.
Proof.
  unfold DbCreateTables.create_tables, bind.
  destruct (psycopg2.cursor conn w) as [[e|cur] w1]; reflexivity.
Qed.

(** The three statements run one after the other; none of them draws a
    value from a sequence or touches a table that exists. *)
Lemma ddl_steps db :
  exists db1 db2,
    Pg.run (Pg.CREATE_TABLE_IF_NOT_EXISTS Pg.Users) db = inr (db1, [])
    /\ Pg.run (Pg.CREATE_TABLE_IF_NOT_EXISTS Pg.Status) db1 = inr (db2, [])
    /\ Pg.run (Pg.CREATE_TABLE_IF_NOT_EXISTS Pg.Tasks) db2 = inr (ensure_tables db, [])
    /\ Pg.keep_sequences db db = db
    /\ Pg.keep_sequences db db1 = db
    /\ Pg.keep_sequences db db2 = db
    /\ Pg.keep_sequences db (ensure_tables db) = db.
Proof.
  destruct db as [[[ru lu]|] [[rs ls]|] [[rt lt]|]];
    eexists; eexists; (split; [reflexivity|]); (split; [reflexivity|]);
    repeat split.
Qed.

Lemma keep_sequences_same db : Pg.keep_sequences db db = db.
Proof. destruct (ddl_steps db) as (_ & _ & _ & _ & _ & H & _). exact H. Qed.

(** A statement whose round trip fails, sent on a transaction that has
    drawn nothing: it raises the failure and nothing is committed. *)
Lemma execute_fault cur qs w v e :
  in_txn w v -> Pg.keep_sequences (server w) v = server w ->
  server_fault (oracle w) (round_trips w) = Some e ->
  exists w',
    psycopg2.execute cur qs w = (inl e, w')
    /\ server w' = server w /\ quiet w' /\ oracle w' = oracle w
    /\ round_trips w' = S (round_trips w) /\ records w' = records w
    /\ is_Some (session w')
    /\ (txn_open w' \/ link_lost w w').
Proof.
  intros Hin Hq Hf. unfold psycopg2.execute, psycopg2.dropped, psycopg2.opened, bind.
  rewrite Hin. simpl. rewrite Hf.
  destruct (breaks_link (oracle w) (round_trips w)) eqn:Eb;
    eexists; (split; [reflexivity|]); simpl.
  - rewrite Hq. split; [reflexivity|].
    split; [intros s Hs; inversion Hs; subst; simpl; apply keep_sequences_same|].
    repeat split; eauto. right.
    apply link_lost_now; [reflexivity | rewrite Hf; discriminate | exact Eb].
  - split; [reflexivity|].
    split; [intros s Hs; inversion Hs; subst; simpl; exact Hq|].
    repeat split; eauto. left. eexists. split; [reflexivity|]. auto.
Qed.

Lemma execute_begins cur qs w db db' res :
  in_txn w db ->
  server_fault (oracle w) (round_trips w) = None ->
  Pg.run_all qs db [] = inr (db', res) ->
  begun (snd (psycopg2.execute cur qs w)) = true
  /\ records (snd (psycopg2.execute cur qs w)) = records w.
Proof.
  intros H Hf Hr. unfold psycopg2.execute, psycopg2.opened, bind.
  rewrite H. simpl. rewrite Hf, Hr. simpl. split; [apply orb_true_r | reflexivity].
Qed.

(** What ends a transaction that has drawn nothing, without a commit,
    leaves the committed database as it is. *)
Lemma rollback_quiet conn w :
  quiet w ->
  let w' := snd (psycopg2.rollback conn w) in
  server w' = server w /\ quiet w' /\ oracle w' = oracle w
  /\ (round_trips w <= round_trips w' <= S (round_trips w))%nat
  /\ records w' = records w.
Proof.
  intros Hq. cbv zeta.
  unfold psycopg2.rollback, psycopg2.dropped, psycopg2.opened, bind.
  destruct (session w) as [s|] eqn:Hs.
  2:{ simpl. repeat split; auto; lia. }
  pose proof (Hq s Hs) as Hk.
  destruct (closed s). { simpl. repeat split; auto; lia. }
  destruct (begun w). 2:{ simpl. repeat split; auto; lia. }
  assert (Hdrop : forall gone w1,
            server w1 = server w ->
            quiet (set_begun false
                     (set_server (Pg.keep_sequences (server w1) (working s))
                        (set_session
                           (Some (mkSession (autocommit s) gone
                                    (Pg.keep_sequences (server w1) (working s)) false))
                           w1)))).
  { intros gone w1 Hsv s' Hs'. simpl in Hs'. inversion Hs'; subst. simpl.
    rewrite Hsv, Hk. apply keep_sequences_same. }
  destruct (server_fault (oracle w) (round_trips w)) as [e|].
  - destruct (breaks_link (oracle w) (round_trips w)); simpl.
    + split; [exact Hk|]. split; [|repeat split; lia].
      exact (Hdrop true (set_round_trips (S (round_trips w)) w) eq_refl).
    + split; [reflexivity|]. split; [|repeat split; lia].
      intros s' Hs'. simpl in Hs'. rewrite Hs in Hs'. inversion Hs'; subst. exact Hk.
  - simpl. split; [exact Hk|]. split; [|repeat split; lia].
    exact (Hdrop false (set_round_trips (S (round_trips w)) w) eq_refl).
Qed.

(** [create_tables] on a fresh connection, by the first of its four round
    trips that fails: it raises, and nothing is committed; or none fails,
    and the three tables are committed. *)
Lemma create_tables_faults conn w db :
  in_txn w db -> server w = db ->
  exists r w',
    DbCreateTables.create_tables conn DbCreateTables.DDL_STATEMENTS w = (r, w')
    /\ oracle w' = oracle w /\ records w' = records w
    /\ match first_fault (oracle w) (round_trips w) 4 with
       | Some i =>
           (exists e, r = inl e)
           /\ server w' = db /\ quiet w'
           /\ round_trips w' = (round_trips w + i + 1)%nat
           /\ is_Some (session w')
           /\ (txn_open w' \/ link_lost w w')
       | None =>
           r = inr tt
           /\ server w' = ensure_tables db /\ in_txn w' (ensure_tables db)
           /\ begun w' = false
           /\ round_trips w' = (round_trips w + 4)%nat
       end.
Proof.
  intros Hin Hsv.
  destruct (ddl_steps db) as (db1 & db2 & R1 & R2 & R3 & K0 & K1 & K2 & K3).
  rewrite create_tables_unfold, (cursor_ok conn w db Hin).
  unfold DbCreateTables.DDL_STATEMENTS. rewrite for_each_cons. unfold bind at 1.
  cbn [first_fault].
  (* the first statement *)
  destruct (server_fault (oracle w) (round_trips w)) as [e|] eqn:F0.
  { destruct (execute_fault the_cursor [Pg.CREATE_TABLE_IF_NOT_EXISTS Pg.Users]
                w db e Hin ltac:(rewrite Hsv; exact K0) F0)
      as (w' & He & Hs' & Hq & Ho & Hr & Hrec & Hse & Hop).
    rewrite He. exists (inl e), w'. split; [reflexivity|].
    repeat split; eauto; try congruence. lia. }
  destruct (execute_ok the_cursor [Pg.CREATE_TABLE_IF_NOT_EXISTS Pg.Users] w db db1 []
              Hin F0 ltac:(cbn [Pg.run_all]; rewrite R1; reflexivity))
    as (wa & Hea & Hina & Hsa & Hra).
  rewrite Hea. unfold ret at 1. rewrite for_each_cons. unfold bind at 1.
  destruct Hsa as (_ & _ & _ & Hsva & _ & _ & _ & Hreca & Hoa).
  rewrite <- Hoa, <- Hra.
  (* the second *)
  destruct (server_fault (oracle wa) (round_trips wa)) as [e|] eqn:F1.
  { destruct (execute_fault the_cursor [Pg.CREATE_TABLE_IF_NOT_EXISTS Pg.Status]
                wa db1 e Hina ltac:(rewrite Hsva, Hsv; exact K1) F1)
      as (w' & He & Hs' & Hq & Ho & Hr & Hrec & Hse & Hop).
    rewrite He. exists (inl e), w'. split; [reflexivity|]. simpl.
    assert (Hop' : txn_open w' \/ link_lost w w').
    { destruct Hop as [Hop|Hop]; [left; exact Hop|right].
      apply (link_lost_earlier w wa w'); [exact Hoa | lia | exact Hop]. }
    repeat split; eauto; try congruence. lia. }
  destruct (execute_ok the_cursor [Pg.CREATE_TABLE_IF_NOT_EXISTS Pg.Status] wa db1 db2 []
              Hina F1 ltac:(cbn [Pg.run_all]; rewrite R2; reflexivity))
    as (wb & Heb & Hinb & Hsb & Hrb).
  rewrite Heb. unfold ret at 1. rewrite for_each_cons. unfold bind at 1.
  destruct Hsb as (_ & _ & _ & Hsvb & _ & _ & _ & Hrecb & Hob).
  rewrite <- Hob, <- Hrb.
  (* the third *)
  destruct (server_fault (oracle wb) (round_trips wb)) as [e|] eqn:F2.
  { destruct (execute_fault the_cursor [Pg.CREATE_TABLE_IF_NOT_EXISTS Pg.Tasks]
                wb db2 e Hinb ltac:(rewrite Hsvb, Hsva, Hsv; exact K2) F2)
      as (w' & He & Hs' & Hq & Ho & Hr & Hrec & Hse & Hop).
    rewrite He. exists (inl e), w'. split; [reflexivity|]. simpl.
    assert (Hop' : txn_open w' \/ link_lost w w').
    { destruct Hop as [Hop|Hop]; [left; exact Hop|right].
      apply (link_lost_earlier w wb w'); [congruence | lia | exact Hop]. }
    repeat split; eauto; try congruence. lia. }
  destruct (execute_ok the_cursor [Pg.CREATE_TABLE_IF_NOT_EXISTS Pg.Tasks] wb db2
              (ensure_tables db) [] Hinb F2
              ltac:(cbn [Pg.run_all]; rewrite R3; reflexivity))
    as (wc & Hec & Hinc & Hsc & Hrc).
  destruct (execute_begins the_cursor [Pg.CREATE_TABLE_IF_NOT_EXISTS Pg.Tasks] wb db2
              (ensure_tables db) [] Hinb F2
              ltac:(cbn [Pg.run_all]; rewrite R3; reflexivity))
    as [Hbc _].
  rewrite Hec in Hbc. simpl in Hbc.
  rewrite Hec. unfold ret at 1. cbn [for_each]. unfold ret at 1.
  destruct Hsc as (_ & _ & _ & Hsvc & _ & _ & _ & Hrecc & Hoc).
  rewrite <- Hoc, <- Hrc.
  (* the commit *)
  unfold psycopg2.commit, psycopg2.dropped, psycopg2.opened, bind.
  rewrite Hinc. simpl. rewrite Hbc.
  assert (Hsvw : server wc = db) by congruence.
  destruct (server_fault (oracle wc) (round_trips wc)) as [e|] eqn:F3; simpl.
  - eexists; eexists. split; [reflexivity|]. simpl. rewrite Hsvw, K3.
    split; [congruence|]. split; [congruence|]. split; [eauto|].
    split; [reflexivity|].
    split; [intros s Hs; inversion Hs; subst; simpl; apply keep_sequences_same|].
    split; [lia|]. split; [eauto|].
    destruct (breaks_link (oracle wc) (round_trips wc)) eqn:Eb.
    + right. exists (round_trips wc). simpl. split; [lia|].
      replace (oracle w) with (oracle wc) by congruence.
      rewrite F3. split; [discriminate | exact Eb].
    + left. eexists. split; [reflexivity|]. auto.
  - eexists; eexists. split; [reflexivity|]. simpl.
    split; [congruence|]. split; [congruence|]. repeat split. lia.
Qed.

(** The rest of [main] once [create_tables] has raised. *)
Lemma bootstrap_aborts w conn w1 e w2 :
  DbCreateTables.get_db_connection w = (inr conn, w1) ->
  DbCreateTables.create_tables conn DbCreateTables.DDL_STATEMENTS w1 = (inl e, w2) ->
  quiet w2 ->
  exists w',
    DbCreateTables.main w = (inr 1, w')
    /\ server w' = server w2
    /\ (round_trips w2 <= round_trips w' <= S (round_trips w2))%nat
    /\ (txn_open w2 -> txn_open w' \/ link_lost w2 w').
Proof.
  intros Hget Hct Hq.
  pose proof (rollback_quiet conn w2 Hq) as Hrb. cbv zeta in Hrb.
  assert (Hop : txn_open w2 ->
                txn_open (snd (psycopg2.rollback conn w2))
                \/ link_lost w2 (snd (psycopg2.rollback conn w2))).
  { intros H. apply (keeps_rollback conn w2 (txn_open_manual _ H)), H. }
  unfold DbCreateTables.main, try_except. unfold bind at 1. rewrite Hget.
  unfold bind at 1. unfold psycopg2.with_connection. unfold bind at 1. rewrite Hct.
  destruct (psycopg2.rollback conn w2) as [r3 w3]. simpl in Hrb, Hop.
  destruct Hrb as (Hsv & _ & _ & Hr & _).
  destruct r3 as [e3|[]]; unfold bind, logging.error, logging.log, ret;
    eexists; (split; [reflexivity|]); simpl; auto.
Qed.

(** The rest of [main] once [create_tables] has returned: the connection
    has no transaction open, so leaving the [with] block sends nothing. *)
Lemma bootstrap_returns w conn w1 w2 db :
  DbCreateTables.get_db_connection w = (inr conn, w1) ->
  DbCreateTables.create_tables conn DbCreateTables.DDL_STATEMENTS w1 = (inr tt, w2) ->
  in_txn w2 db -> server w2 = db -> begun w2 = false ->
  exists w',
    DbCreateTables.main w = (inr 0, w')
    /\ server w' = db /\ in_txn w' db /\ round_trips w' = round_trips w2
    /\ records w' =
       (records w2 ++
        [mkLog INFO "Tables created successfully (or already existed)." [] false])%list.
Proof.
  intros Hget Hct Hin Hsv Hb.
  unfold DbCreateTables.main, try_except. unfold bind at 1. rewrite Hget.
  unfold bind at 1. unfold psycopg2.with_connection. unfold bind at 1. rewrite Hct.
  unfold logging.info, logging.log, psycopg2.commit, psycopg2.opened, bind, ret.
  simpl. rewrite Hin. simpl. rewrite Hb.
  eexists. split; [reflexivity|]. simpl.
  split; [reflexivity|]. split; [exact Hin|]. split; reflexivity.
Qed.

(** C9.  [main] of the bootstrap script never raises: it returns a status
    code.  When no connection can be opened the code is 1 and nothing has
    changed.  Otherwise the three statements and the commit are the four
    round trips that follow.  When one of them fails, the first that does
    ends the sequence: at most the rollback is sent after it, so no later
    statement and no commit; what the committed database holds is what it
    held, the tables created before the failure included; the code is 1.
    When none fails the three tables are committed and the code is 0. *)
Theorem bootstrap_main_all_or_nothing w :
  exists code w',
    DbCreateTables.main w = (inr code, w')
    /\ match DbCreateTables.get_db_connection w with
       | (inl _, _) =>
           code = 1 /\ server w' = server w /\ round_trips w' = round_trips w
       | (inr conn, w1) =>
           match first_fault (oracle w) (round_trips w1) 4 with
           | Some i =>
               code = 1 /\ server w' = server w
               /\ (round_trips w1 + i + 1 <= round_trips w'
                   <= round_trips w1 + i + 2)%nat
           | None =>
               code = 0 /\ server w' = ensure_tables (server w)
               /\ round_trips w' = (round_trips w1 + 4)%nat
           end
       end.
Proof.
  destruct (DbCreateTables.get_db_connection w) as [[e|conn] w1] eqn:Eget.
  - (* no connection *)
    destruct (get_db_connection_fails w e w1 Eget) as [Hsv Hr].
    unfold DbCreateTables.main, try_except. unfold bind at 1. rewrite Eget.
    unfold bind, logging.error, logging.log, ret.
    exists 1. eexists. split; [reflexivity|]. simpl. auto.
  - destruct (get_db_connection_opens w conn w1 Eget) as (Hin & Hsv & Ho & Hb & Hr).
    destruct (create_tables_faults conn w1 (server w) Hin Hsv)
      as (r & w2 & Hct & _ & _ & Hcase).
    rewrite Ho in Hcase.
    destruct (first_fault (oracle w) (round_trips w1) 4) as [i|].
    + (* a statement, or the commit, failed *)
      destruct Hcase as ((e & ->) & Hsv2 & Hq2 & Hr2 & _).
      destruct (bootstrap_aborts w conn w1 e w2 Eget Hct Hq2)
        as (w' & Hm & Hsv' & Hr' & _).
      exists 1, w'. split; [exact Hm|]. split; [reflexivity|].
      split; [congruence | lia].
    + destruct Hcase as (-> & Hsv2 & Hin2 & Hb2 & Hr2).
      destruct (bootstrap_returns w conn w1 w2 _ Eget Hct Hin2 Hsv2 Hb2)
        as (w' & Hm & Hsv' & _ & Hr' & _).
      exists 0, w'. split; [exact Hm|]. split; [reflexivity|].
      split; [exact Hsv' | congruence].
Qed.

(** ** Seed tasks *)

Lemma same_server_refl w : same_server w w.
Proof. repeat split. Qed.

Lemma same_server_trans w1 w2 w3 :
  same_server w1 w2 -> same_server w2 w3 -> same_server w1 w3.
Proof.
  unfold same_server. intros H1 H2.
  destruct H1 as (?&?&?&?&?&?&?&?), H2 as (?&?&?&?&?&?&?&?).
  repeat split; congruence.
Qed.







Lemma same_client_in w w' : same_client w w' -> oracle w' = oracle w /\ server w' = server w.
Proof. intros (_&_&_&?&_&_&_&_&?). auto. Qed.


(** C5, as amended.  When the users table and the status table exist and
    one of them is empty, [seed_tasks] returns without raising, leaves the
    database of the transaction as it was (no task is generated, none
    inserted) and logs one warning. *)
Theorem seed_tasks_skips conn count w db us st :
  in_txn w db ->
  Pg.users db = Some us -> Pg.status db = Some st ->
  Pg.rows us = [] \/ Pg.rows st = [] ->
  server_fault (oracle w) (round_trips w) = None ->
  server_fault (oracle w) (S (round_trips w)) = None ->
  exists w',
    Seed.seed_tasks conn count w = (inr tt, w')
    /\ in_txn w' db
    /\ server w' = server w
    /\ fake_calls w' = fake_calls w /\ random_calls w' = random_calls w
    /\ records w' = (records w ++ [skip_warning])%list.
Proof.
  intros Hin Hus Hst Hempty Hf0 Hf1.
  unfold Seed.seed_tasks. unfold bind at 1. unfold bind at 1.
  rewrite (cursor_ok conn w db Hin). unfold bind at 1.
  assert (Hr1 : Pg.run_all [Seed.SQL_SELECT_USER_IDS] db [] = inr (db, Pg.user_ids us))
    by (simpl; rewrite Hus; reflexivity).
  destruct (execute_ok the_cursor _ w db db _ Hin Hf0 Hr1) as (w1 & He1 & Hin1 & Hs1 & Hrt1).
  rewrite He1. unfold bind at 1.
  assert (Hr2 : Pg.run_all [Seed.SQL_SELECT_STATUS_IDS] db [] = inr (db, Pg.status_ids st))
    by (simpl; rewrite Hst; reflexivity).
  destruct Hs1 as (?&?&?&Hsv1&Hfc1&?&Hrc1&Hrec1&Ho1).
  rewrite <- Ho1, <- Hrt1 in Hf1.
  destruct (execute_ok the_cursor _ w1 db db _ Hin1 Hf1 Hr2) as (w2 & He2 & Hin2 & Hs2 & _).
  rewrite He2. unfold ret at 1.
  destruct Hs2 as (?&?&?&Hsv2&Hfc2&?&Hrc2&Hrec2&Ho2).
  replace (Seed.is_empty (Pg.user_ids us) || Seed.is_empty (Pg.status_ids st))
    with true
    by (unfold Pg.user_ids, Pg.status_ids; destruct Hempty as [-> | ->];
        [reflexivity | destruct (map Pg.u_id (Pg.rows us)); reflexivity]).
  unfold logging.warning, logging.log. eexists. split; [reflexivity|].
  simpl. repeat split; try congruence. exact Hin2.
  unfold skip_warning. rewrite Hrec2, Hrec1. reflexivity.
Qed.

(** ** Seed statuses *)











(** ** Seed users *)

(** A first draw that is not in the cache is returned at once. *)
Lemma unique_attempts_first n f w v w1 :
  f w = (inr v, w1) -> v ∉ unique_seen w1 ->
  fake.unique_attempts (S (S n)) f None w = (inr v, w1).
Proof.
  intros Hf Hv. cbn [fake.unique_attempts]. unfold bind at 1. rewrite Hf.
  rewrite (bool_decide_eq_false_2 _ Hv). reflexivity.
Qed.











(** ** The claims at work *)


(** In that run the thirteen values drawn from the two sequences are not
    given back, and [main] raises: the handler calls [rollback] on a
    connection that the lost link has closed. *)
Example seed_main_link_lost :
  let w := fresh_world env_url bootstrapped failing_third in
  fst (Seed.main any_host 10 30 w) = inl (InterfaceError "connection already closed")
  /\ server (snd (Seed.main any_host 10 30 w)) =
     Pg.mkDatabase (Some (Pg.mkTable [] 10)) (Some (Pg.mkTable [] 3))
       (Some (Pg.mkTable [] 0)).
Proof. split; vm_compute; reflexivity. Qed.

(** The same failure with the link intact: the rollback goes through and
    [main] returns. *)
Example seed_main_server_error :
  let w := fresh_world env_url bootstrapped rejecting_third in
  exists w',
    Seed.main any_host 10 30 w = (inr tt, w')
    /\ server w' =
       Pg.mkDatabase (Some (Pg.mkTable [] 10)) (Some (Pg.mkTable [] 3))
         (Some (Pg.mkTable [] 0))
    /\ round_trips w' = 4%nat.
Proof. eexists. split; [vm_compute; reflexivity | split; reflexivity]. Qed.

(** C9 at work: the third statement is lost; the two tables created before
    it are not committed and the code is 1. *)
Example bootstrap_third_statement_fails :
  exists w',
    DbCreateTables.main (fresh_world env_bootstrap no_database failing_third)
    = (inr 1, w')
    /\ server w' = no_database.
Proof. eexists. split; [vm_compute; reflexivity | reflexivity]. Qed.

(** C9 at work: nothing fails; the three tables are committed and the code
    is 0. *)
Example bootstrap_succeeds :
  exists w',
    DbCreateTables.main (fresh_world env_bootstrap no_database steady) = (inr 0, w')
    /\ server w' = bootstrapped.
Proof. eexists. split; [vm_compute; reflexivity | reflexivity]. Qed.


(** C5 at work: no user yet. *)
Lemma seed_tasks_skips_witness :
  exists w',
    Seed.seed_tasks the_connection 30 (in_session bootstrapped steady) = (inr tt, w')
    /\ in_txn w' bootstrapped
    /\ server w' = server (in_session bootstrapped steady)
    /\ fake_calls w' = fake_calls (in_session bootstrapped steady)
    /\ random_calls w' = random_calls (in_session bootstrapped steady)
    /\ records w' = (records (in_session bootstrapped steady) ++ [skip_warning])%list.
Proof.
  apply (seed_tasks_skips the_connection 30 _ bootstrapped no_users no_statuses).
  - reflexivity.
  - reflexivity.
  - reflexivity.
  - left; reflexivity.
  - reflexivity.
  - reflexivity.
Defined.

(** C5 fails as stated: on a database that was never bootstrapped there
    is no user and no status, and yet [seed_tasks] does not skip.  The
    query for the user ids comes before the test for emptiness; it fails,
    [seed_tasks] raises and logs no warning. *)
Lemma seed_tasks_without_tables :
  let w := in_session no_database steady in
  fst (Seed.seed_tasks the_connection 30 w) =
    inl (ProgrammingError "relation users does not exist")
  /\ records (snd (Seed.seed_tasks the_connection 30 w)) = records w.
Proof. split; vm_compute; reflexivity. Qed.






(** * Further properties of the code *)


(** ** More on the Configuration Resolver *)

Lemma lstrip_stripped p s :
  match PyStr.lstrip p s with
  | String c _ => p c = false
  | EmptyString => True
  end.
Proof.
  induction s as [|a s IH]; simpl; [exact I|].
  destruct (p a) eqn:E; [exact IH | exact E].
Qed.

Lemma url_port_range r p :
  UrlLib.port r = inr (Some p) -> 0 <= p <= 65535.
Proof.
  unfold UrlLib.port. destruct (snd (UrlLib._hostinfo r)) as [t|]; [|discriminate].
  destruct (PyStr.isdigit t); [|discriminate].
  destruct ((0 <=? PyStr.digits_val 0 t) && (PyStr.digits_val 0 t <=? 65535))%Z eqn:E;
    [|discriminate].
  intros H. inversion H; subst. apply andb_true_iff in E as [E1 E2]. lia.
Qed.

Lemma filter_unset_agree env env' (l : list string) :
  (forall k, k ∈ l -> env !! k = env' !! k) ->
  List.filter (fun k => negb (truthy (os.getenv env k))) l =
  List.filter (fun k => negb (truthy (os.getenv env' k))) l.
Proof.
  unfold os.getenv. induction l as [|k l IH]; intros H; simpl; [reflexivity|].
  rewrite (H k) by left. rewrite IH; [reflexivity|].
  intros k' Hk'. apply H. right. exact Hk'.
Qed.

Lemma missing_agree env env' :
  (forall k, k ∈ Seed.required -> env !! k = env' !! k) ->
  Seed.missing env = Seed.missing env'.
Proof. apply filter_unset_agree. Qed.

(** X1. The resolver reads six variables and nothing else: two environments
    that agree on [DATABASE_URL], [DB_NAME], [DB_USER], [DB_PASSWORD],
    [DB_HOST] and [DB_PORT] give the same configuration or the same
    error. *)
Theorem parse_db_env_reads_six chk env env' :
  (forall k, k ∈ "DATABASE_URL" :: "DB_PORT" :: Seed.required ->
             env !! k = env' !! k) ->
  Seed._parse_db_env chk env = Seed._parse_db_env chk env'.
Proof.
  intros H. unfold Seed._parse_db_env, os.getenv, os.getenv_default.
  assert (Hreq : forall k, k ∈ Seed.required -> env !! k = env' !! k)
    by (intros k Hk; apply H; do 2 right; exact Hk).
  rewrite (missing_agree env env' Hreq).
  rewrite (H "DATABASE_URL") by left.
  rewrite (H "DB_PORT") by (right; left).
  rewrite !Hreq by (apply list_elem_of_In; simpl; auto).
  reflexivity.
Qed.

(** X2. Whenever a non-empty [DATABASE_URL] is accepted, the port of the
    configuration lies between 1 and 65535 (a port 0 in the URL is
    replaced by 5432 as a missing one is), and the database name is
    present and does not begin with a slash. *)
Theorem parse_db_env_url_record chk env url cfg :
  env !! "DATABASE_URL" = Some url ->
  url <> EmptyString ->
  Seed._parse_db_env chk env = inr cfg ->
  1 <= Seed.port cfg <= 65535
  /\ exists d, Seed.dbname cfg = Some d /\ PyStr.startswith "/" d = false.
Proof.
  intros H Hne. unfold Seed._parse_db_env, os.getenv. rewrite H.
  assert (Ht : truthy (Some url) = true) by (destruct url; [congruence | reflexivity]).
  rewrite Ht. simpl default.
  destruct (UrlLib.urlparse chk url) as [e|parsed]; [discriminate|].
  destruct (negb _); [discriminate|].
  destruct (UrlLib.port parsed) as [e|p] eqn:Ep; [discriminate|].
  intros Hcfg. inversion Hcfg; subst; clear Hcfg. simpl. split.
  - destruct p as [z|]; [|lia]. apply url_port_range in Ep.
    destruct z; lia.
  - eexists. split; [reflexivity|].
    pose proof (lstrip_stripped (Ascii.eqb "/") (UrlLib.path parsed)) as Hs.
    destruct (PyStr.lstrip (Ascii.eqb "/") (UrlLib.path parsed)) as [|c r];
      [reflexivity|].
    simpl. rewrite Ascii.eqb_sym. exact Hs.
Qed.

(** ** More on the Connection Manager *)

Lemma attempt_once_trace cfg a w :
  let '(d, out) := connect_outcome (oracle w) (connects w) in
  exists w1,
    Seed.attempt_once cfg a w =
      (inr match out with Some e => inl e | None => inr the_connection end, w1)
    /\ same_backend w w1
    /\ connects w1 = S (connects w)
    /\ clock w + (match out with Some _ => 1500 | None => 0 end) <= clock w1
    /\ records w1 = (records w ++ retry_records (oracle w) (connects w) (a - 1) 1)%list.
Proof.
  unfold Seed.attempt_once, try_except, bind, psycopg2.connect,
    psycopg2.set_autocommit, psycopg2.opened, logging.info, logging.warning,
    logging.log, time.sleep, ret. cbn [retry_records].
  replace (a - 1 + 1) with a by lia.
  destruct (connect_outcome (oracle w) (connects w)) as [d [e|]]; simpl;
   eexists; (split; [reflexivity|]); simpl; repeat split; lia.
Qed.

Lemma same_backend_trans w1 w2 w3 :
  same_backend w1 w2 -> same_backend w2 w3 -> same_backend w1 w3.
Proof.
  unfold same_backend. intros (?&?&?&?&?&?&?) (?&?&?&?&?&?&?).
  repeat split; congruence.
Qed.

Lemma retry_records_app o n m : forall from a,
  (retry_records o from a n ++ retry_records o (from + n) (a + Z.of_nat n) m)%list
  = retry_records o from a (n + m).
Proof.
  induction n as [|n IH]; intros from a.
  - simpl. rewrite Nat.add_0_r, Z.add_0_r. reflexivity.
  - cbn [retry_records Nat.add app]. f_equal. rewrite <- IH. do 2 f_equal; lia.
Qed.

Lemma retry_trace cfg deadline attempt last_err w :
  let '(r, w') := Seed.retry cfg deadline attempt last_err w in
  let n := (connects w' - connects w)%nat in
  same_backend w w'
  /\ (connects w <= connects w')%nat
  /\ records w' = (records w ++ retry_records (oracle w) (connects w) attempt n)%list
  /\ (n = O \/ clock w + 1500 * (Z.of_nat n - 1) < deadline).
Proof.
  funelim (Seed.retry cfg deadline attempt last_err w).
  - rewrite Nat.sub_diag. simpl. rewrite app_nil_r. repeat split; auto.
  - exfalso. clear H H0. pose proof (attempt_once_trace cfg (attempt + 1) w) as Hc.
    destruct (connect_outcome (oracle w) (connects w)) as [d [err|]];
      destruct Hc as (w1' & Heq & _); rewrite Hrun in Heq; discriminate.
  - clear H0 H1 Heqcall. pose proof (attempt_once_trace cfg (attempt + 1) w) as Hc.
    pose proof (proj1 (Z.ltb_lt _ _) Hlt) as Hlt'.
    destruct (connect_outcome (oracle w) (connects w)) as [d [err|]] eqn:Eo;
      destruct Hc as (w1' & Heq & Hb & Hn & Hk & Hrec);
      rewrite Hrun in Heq; inversion Heq; subst.
    destruct (Seed.retry cfg deadline (attempt + 1) (Some err) w1') as [r w'].
    cbv zeta in H. destruct H as (Hb' & Hle & Hrec' & Hbound). cbv zeta.
    assert (Ho : oracle w1' = oracle w) by (destruct Hb as (_&_&_&_&_&_&?); auto).
    split; [eapply same_backend_trans; eassumption|].
    split; [lia|]. split.
    + rewrite Hrec', Hrec, Ho, Hn, <- app_assoc. f_equal.
      replace (attempt + 1 - 1) with attempt by lia.
      replace (connects w' - connects w)%nat
        with (1 + (connects w' - S (connects w)))%nat by lia.
      rewrite <- retry_records_app. do 2 f_equal; lia.
    + right. destruct Hbound as [H0 | Hlt2]; [lia|]. rewrite Hn in Hlt2. lia.
  - clear H H0. pose proof (attempt_once_trace cfg (attempt + 1) w) as Hc.
    pose proof (proj1 (Z.ltb_lt _ _) Hlt) as Hlt'.
    destruct (connect_outcome (oracle w) (connects w)) as [d [err|]];
      destruct Hc as (w1' & Heq & Hb & Hn & Hk & Hrec);
      rewrite Hrun in Heq; inversion Heq; subst.
    cbv zeta. rewrite Hn. replace (S (connects w) - connects w)%nat with 1%nat by lia.
    split; [exact Hb|]. split; [lia|]. split.
    + rewrite Hrec. replace (attempt + 1 - 1) with attempt by lia. reflexivity.
    + right. simpl. lia.
Qed.

(** X3. [get_connection] tries a bounded number of times: every failed
    attempt sleeps 1.5 s, so with [n] attempts [1.5 * (n - 1)] is below
    the [max_wait_seconds] given; a limit of zero or less allows no
    attempt at all. *)
Theorem get_connection_attempts_bounded chk max_wait w :
  let w' := snd (Seed.get_connection chk max_wait w) in
  3 * Z.of_nat (connects w' - connects w) < 2 * Z.max 0 max_wait + 3.
Proof.
  unfold Seed.get_connection, bind, reading, time.time.
  destruct (Seed._parse_db_env chk (environ w)) as [e|cfg]; simpl.
  - rewrite Nat.sub_diag. simpl. lia.
  - pose proof (retry_trace cfg (clock w + 1000 * max_wait) 0 None w) as H.
    destruct (Seed.retry cfg (clock w + 1000 * max_wait) 0 None w) as [r w'].
    cbv zeta in H. destruct H as (_ & _ & _ & [H0 | Hlt]); simpl.
    + rewrite H0. simpl. lia.
    + lia.
Qed.

(** X4. [get_connection] logs exactly one record per connection attempt, in
    order and numbered from 1: a warning with the error for an attempt
    that failed, an info line for the one that succeeded; it logs
    nothing else. *)
Theorem get_connection_logs_attempts chk max_wait w :
  let w' := snd (Seed.get_connection chk max_wait w) in
  records w' =
    (records w
     ++ retry_records (oracle w) (connects w) 0 (connects w' - connects w))%list.
Proof.
  unfold Seed.get_connection, bind, reading, time.time.
  destruct (Seed._parse_db_env chk (environ w)) as [e|cfg]; simpl.
  - rewrite Nat.sub_diag. simpl. rewrite app_nil_r. reflexivity.
  - pose proof (retry_trace cfg (clock w + 1000 * max_wait) 0 None w) as H.
    destruct (Seed.retry cfg (clock w + 1000 * max_wait) 0 None w) as [r w'].
    cbv zeta in H. destruct H as (_ & _ & Hrec & _). exact Hrec.
Qed.

(** ** More on the Seeder *)







(** When every email to come is in the cache already, the loop draws [n]
    times and gives up. *)
Lemma unique_attempts_exhaust n : forall r w,
  (forall k, (fake_calls w <= k)%nat -> email_at (oracle w) k ∈ unique_seen w) ->
  match r with Some v => v ∈ unique_seen w | None => True end ->
  exists w',
    fake.unique_attempts n fake.email r w = (inl gave_up, w')
    /\ fake_calls w' = (fake_calls w + n)%nat
    /\ same_server w w' /\ unique_seen w' = unique_seen w.
Proof.
  induction n as [|n IH]; intros r w Hall Hr.
  - exists w. simpl. unfold raise. split; [reflexivity|]. split; [lia|].
    split; [apply same_server_refl | reflexivity].
  - set (w1 := set_fake_calls (S (fake_calls w)) w).
    assert (Hem : fake.email w = (inr (email_at (oracle w) (fake_calls w)), w1))
      by reflexivity.
    destruct (IH (Some (email_at (oracle w) (fake_calls w))) w1) as (w' & Hrun & Hc & Hs & Hu).
    { intros k Hk. apply (Hall k). simpl in Hk. lia. }
    { apply (Hall (fake_calls w)). lia. }
    assert (Hdraw : bind fake.email
                      (fun v' => fake.unique_attempts n fake.email (Some v')) w
                    = (inl gave_up, w')).
    { unfold bind. rewrite Hem. exact Hrun. }
    exists w'. cbn [fake.unique_attempts]. split.
    + destruct r as [v|]; [|exact Hdraw].
      rewrite (bool_decide_eq_true_2 _ Hr). exact Hdraw.
    + split; [simpl in Hc; lia|]. split; [|exact Hu].
      eapply same_server_trans; [|exact Hs]. repeat split.
Qed.

Lemma comprehension_S {A} n (f : M A) w :
  comprehension (S n) f w =
    match f w with
    | (inl e, w') => (inl e, w')
    | (inr x, w') =>
        match comprehension n f w' with
        | (inl e, w'') => (inl e, w'')
        | (inr r, w'') => (inr (x :: r), w'')
        end
    end.
Proof. reflexivity. Qed.

(** X7. When the email provider can only produce one address and at least
    two users are asked for, [seed_users] raises the uniqueness exception
    after 1003 calls of the generators, without a round trip and without
    a log record; the cache is not cleared on this path and still holds
    the address. *)
Theorem seed_users_generator_exhausted conn count w e :
  (forall k, (fake_calls w <= k)%nat -> email_at (oracle w) k = e) ->
  unique_seen w = ∅ ->
  2 <= count ->
  exists w',
    Seed.seed_users conn count w = (inl gave_up, w')
    /\ fake_calls w' = (fake_calls w + 1003)%nat
    /\ unique_seen w' = {[e]}
    /\ session w' = session w /\ round_trips w' = round_trips w
    /\ records w' = records w.
Proof.
  intros Hconst Hseen Hcount.
  destruct (Z.to_nat count) as [|[|m]] eqn:En; [lia | lia |].
  unfold Seed.seed_users. rewrite En. unfold bind at 1.
  rewrite comprehension_S.
  (* the first user *)
  set (w1 := set_fake_calls (S (fake_calls w)) w).
  set (w2 := set_fake_calls (S (fake_calls w1)) w1).
  set (w3 := set_unique_seen ({[e]} ∪ unique_seen w2) w2).
  assert (Hfirst : Seed.fake_user w = (inr (name_at (oracle w) (fake_calls w), e), w3)).
  { unfold Seed.fake_user. unfold bind at 1. unfold fake.name at 1, fake.provider at 1.
    fold w1. unfold bind at 1. unfold fake.unique_email. unfold bind at 1.
    assert (Hemail : fake.email w1 = (inr e, w2)).
    { unfold fake.email, fake.provider. fold w2. rewrite <- (Hconst (fake_calls w1)).
      - reflexivity.
      - simpl. lia. }
    change 1000%nat with (S (S 998)).
    rewrite (unique_attempts_first 998 fake.email w1 e w2 Hemail).
    - reflexivity.
    - simpl. rewrite Hseen. apply not_elem_of_empty. }
  rewrite Hfirst, comprehension_S.
  (* the second user *)
  set (w4 := set_fake_calls (S (fake_calls w3)) w3).
  destruct (unique_attempts_exhaust 1000 None w4) as (w5 & Hrun & Hc & Hs & Hu).
  { intros k Hk. simpl in Hk. simpl. rewrite (Hconst k) by lia.
    apply elem_of_union. left. apply elem_of_singleton. reflexivity. }
  { exact I. }
  assert (Hsecond : Seed.fake_user w3 = (inl gave_up, w5)).
  { unfold Seed.fake_user. unfold bind at 1. unfold fake.name at 1, fake.provider at 1.
    fold w4. unfold bind at 1. unfold fake.unique_email. unfold bind at 1.
    rewrite Hrun. reflexivity. }
  rewrite Hsecond. exists w5. split; [reflexivity|].
  destruct Hs as (_&_&_&Hrt&_&Hse&Hrec&_).
  split; [rewrite Hc; simpl; lia|]. split.
  - rewrite Hu. simpl. rewrite Hseen. apply (right_id_L ∅ (∪)).
  - repeat split; [rewrite Hse | rewrite Hrt | rewrite Hrec]; reflexivity.
Qed.

Lemma cursor_open conn w s :
  session w = Some s -> closed s = false ->
  psycopg2.cursor conn w = (inr the_cursor, w).
Proof.
  intros Hs Hc. unfold psycopg2.cursor, psycopg2.opened, bind, ret.
  rewrite Hs, Hc. reflexivity.
Qed.

(** X8. With a count of zero or less [seed_users] calls no generator and
    sends nothing; it clears the cache and logs its usual record with the
    count as given. *)
Theorem seed_users_nothing_to_do conn count w :
  txn_open w ->
  count <= 0 ->
  exists w',
    Seed.seed_users conn count w = (inr tt, w')
    /\ session w' = session w /\ server w' = server w
    /\ round_trips w' = round_trips w /\ fake_calls w' = fake_calls w
    /\ unique_seen w' = ∅
    /\ records w' =
       (records w ++ [mkLog INFO "Users inserted/skipped: %d" [ArgInt count] false])%list.
Proof.
  intros (s & Hs & Hc & _) Hle.
  unfold Seed.seed_users. replace (Z.to_nat count) with O by lia.
  cbn [comprehension]. unfold bind at 1. unfold ret at 1.
  unfold bind at 1. unfold fake.unique_clear at 1.
  set (w1 := set_unique_seen ∅ w).
  unfold bind at 1. unfold bind at 1.
  rewrite (cursor_open conn w1 s Hs Hc).
  unfold psycopg2.execute_batch. cbn [psycopg2._paginate for_each]. unfold ret at 1.
  unfold logging.info, logging.log.
  eexists. split; [reflexivity|]. simpl. repeat split; assumption.
Qed.

(** X9. None of the three seeding steps commits or closes by itself:
    whatever the server answers and whether the step returns or raises,
    the rows committed are those committed before the step, and the
    connection is still open afterwards unless a round trip of the step
    failed and took the link with it. *)
Theorem seeding_steps_never_commit conn su st w :
  txn_open w ->
  (Pg.data (server (snd (Seed.seed_statuses conn w))) = Pg.data (server w)
   /\ (txn_open (snd (Seed.seed_statuses conn w))
       \/ link_lost w (snd (Seed.seed_statuses conn w))))
  /\ (Pg.data (server (snd (Seed.seed_users conn su w))) = Pg.data (server w)
      /\ (txn_open (snd (Seed.seed_users conn su w))
          \/ link_lost w (snd (Seed.seed_users conn su w))))
  /\ (Pg.data (server (snd (Seed.seed_tasks conn st w))) = Pg.data (server w)
      /\ (txn_open (snd (Seed.seed_tasks conn st w))
          \/ link_lost w (snd (Seed.seed_tasks conn st w)))).
Proof.
  intros H. pose proof (txn_open_manual _ H) as Hm. split; [|split].
  - destruct (keeps_seed_statuses conn w Hm) as (_ & Hd & _ & _ & _ & Ht). auto.
  - destruct (keeps_seed_users conn su w Hm) as (_ & Hd & _ & _ & _ & Ht). auto.
  - destruct (keeps_seed_tasks conn st w Hm) as (_ & Hd & _ & _ & _ & Ht). auto.
Qed.

(** ** The seeder's entry point *)

Lemma seed_main_unconnected chk su st w e w1 :
  Seed.get_connection chk 30 w = (inl e, w1) ->
  exists w',
    Seed.main chk su st w = (inr tt, w')
    /\ records w' = (records w1 ++ failure_records e)%list
    /\ session w' = session w1 /\ server w' = server w1
    /\ connects w' = connects w1 /\ round_trips w' = round_trips w1
    /\ clock w' = clock w1.
Proof.
  intros Hget. unfold Seed.main. rewrite Hget.
  unfold try_finally, try_except, raise, bind, Seed.when_conn, ret,
    logging.exception, logging.info, logging.log.
  eexists. split; [reflexivity|]. simpl. rewrite <- app_assoc. repeat split.
Qed.

(** X10. When the configuration does not resolve, [main] of the seeder
    returns without an attempt to connect and without waiting; it logs
    the failure with its traceback and then, although no connection was
    ever opened, the record that the connection is closed. *)
Theorem seed_main_misconfigured chk su st w e :
  Seed._parse_db_env chk (environ w) = inl e ->
  exists w',
    Seed.main chk su st w = (inr tt, w')
    /\ records w' = (records w ++ failure_records e)%list
    /\ connects w' = connects w /\ clock w' = clock w
    /\ session w' = session w /\ server w' = server w.
Proof.
  intros Hcfg.
  assert (Hget : Seed.get_connection chk 30 w = (inl e, w)).
  { unfold Seed.get_connection, bind, reading. rewrite Hcfg. reflexivity. }
  destruct (seed_main_unconnected chk su st w e w Hget)
    as (w' & Hm & Hrec & Hse & Hsv & Hc & _ & Hk).
  exists w'. repeat split; assumption.
Qed.



Lemma commit_ok conn w db :
  in_txn w db -> server_fault (oracle w) (round_trips w) = None ->
  exists w',
    psycopg2.commit conn w = (inr tt, w')
    /\ server w' = db /\ in_txn w' db /\ records w' = records w.
Proof.
  intros Hin Hf. unfold psycopg2.commit, psycopg2.opened, bind. rewrite Hin. simpl.
  rewrite Hf. destruct (begun w); eexists; (split; [reflexivity|]); repeat split.
  exact Hin.
Qed.




(** ** More on the Schema Bootstrapper *)

Lemma run_create_tables db :
  Pg.run_all DbCreateTables.DDL_STATEMENTS db [] = inr (ensure_tables db, []).
Proof. destruct db as [[u|] [s|] [t|]]; reflexivity. Qed.

(** Statements sent one by one run in order on the working database. *)
Lemma statements_ok cur statements : forall w db db' res,
  in_txn w db -> fault_free w ->
  Pg.run_all statements db [] = inr (db', res) ->
  exists w',
    for_each statements (fun ddl => let! _ := psycopg2.execute cur [ddl] in ret tt) w
    = (inr tt, w')
    /\ in_txn w' db' /\ same_client w w'.
Proof.
  induction statements as [|q qs IH]; intros w db db' res Hin Hf Hrun.
  - simpl in Hrun. inversion Hrun; subst. exists w.
    split; [reflexivity|]. split; [exact Hin | apply same_client_refl].
  - simpl in Hrun. destruct (Pg.run q db) as [e|[db1 res1]] eqn:Eq; [discriminate|].
    destruct (run_all_res _ _ _ [] _ _ Hrun) as (y & Hrun').
    destruct (execute_page_ok cur [q] w db db1 res1 Hin (Hf _))
      as (w1 & He & Hin1 & Hs1).
    { simpl. rewrite Eq. reflexivity. }
    destruct (IH w1 db1 db' y Hin1 (fault_free_same _ _ Hs1 Hf) Hrun')
      as (w' & Hfe & Hin' & Hs').
    exists w'. rewrite for_each_cons, He. split; [exact Hfe|]. split; [exact Hin'|].
    eapply same_client_trans; eassumption.
Qed.

(** The first statement the server rejects ends the loop. *)
Lemma statements_fail cur statements : forall w db e,
  in_txn w db -> fault_free w ->
  Pg.run_all statements db [] = inl e ->
  exists w',
    for_each statements (fun ddl => let! _ := psycopg2.execute cur [ddl] in ret tt) w
    = (inl e, w')
    /\ server w' = server w /\ txn_open w'.
Proof.
  induction statements as [|q qs IH]; intros w db e Hin Hf Hrun.
  - discriminate.
  - simpl in Hrun. rewrite for_each_cons.
    destruct (Pg.run q db) as [e1|[db1 res1]] eqn:Eq.
    + inversion Hrun; subst. unfold psycopg2.execute, psycopg2.opened, bind.
      rewrite Hin. simpl. rewrite (Hf _). rewrite Eq. eexists. split; [reflexivity|].
      split; [reflexivity|]. eexists. split; [reflexivity|]. auto.
    + destruct (execute_page_ok cur [q] w db db1 res1 Hin (Hf _))
        as (w1 & He & Hin1 & Hs1).
      { simpl. rewrite Eq. reflexivity. }
      rewrite He.
      assert (Hrun' : Pg.run_all qs db1 [] = inl e).
      { clear -Hrun. revert Hrun. generalize res1 (@nil Z). revert db1.
        induction qs as [|q' qs' IHq]; intros db1 r1 r2; simpl; [discriminate|].
        destruct (Pg.run q' db1) as [e'|[db2 r']]; [auto|]. apply IHq. }
      destruct (IH w1 db1 e Hin1 (fault_free_same _ _ Hs1 Hf) Hrun')
        as (w' & Hfe & Hsv & Hop).
      exists w'. split; [exact Hfe|]. split; [|exact Hop].
      destruct (same_client_in _ _ Hs1) as [_ Hsv1]. congruence.
Qed.

Lemma create_tables_result conn statements w db :
  in_txn w db -> fault_free w ->
  match Pg.run_all statements db [] with
  | inr (db', _) =>
      exists w', DbCreateTables.create_tables conn statements w = (inr tt, w')
                 /\ server w' = db' /\ in_txn w' db'
  | inl e =>
      exists w', DbCreateTables.create_tables conn statements w = (inl e, w')
                 /\ server w' = server w
  end.
Proof.
  intros Hin Hf.
  rewrite (create_tables_unfold conn statements w), (cursor_ok conn w db Hin).
  destruct (Pg.run_all statements db []) as [e|[db' res]] eqn:Erun.
  - destruct (statements_fail the_cursor statements w db e Hin Hf Erun)
      as (w' & Hfe & Hsv & _).
    rewrite Hfe. exists w'. auto.
  - destruct (statements_ok the_cursor statements w db db' res Hin Hf Erun)
      as (w1 & Hfe & Hin1 & Hs1).
    rewrite Hfe.
    destruct (commit_ok conn w1 db' Hin1) as (w2 & Hcm & Hsv2 & Hin2 & _).
    { apply (fault_free_same _ _ Hs1 Hf). }
    rewrite Hcm. exists w2. auto.
Qed.

(** X12. [create_tables] with any sequence of statements, on a server
    without faults of its own: when the statements run in order without
    error their result is committed; when one is rejected its error is
    raised and nothing is committed, the earlier statements included. *)
Theorem create_tables_runs_in_order conn statements w db :
  in_txn w db -> fault_free w ->
  match Pg.run_all statements db [] with
  | inr (db', _) =>
      exists w', DbCreateTables.create_tables conn statements w = (inr tt, w')
                 /\ server w' = db' /\ in_txn w' db'
  | inl e =>
      exists w', DbCreateTables.create_tables conn statements w = (inl e, w')
                 /\ server w' = server w
  end.
Proof. apply create_tables_result. Qed.

Lemma connection_kwargs_first_absent env :
  match first_absent env bootstrap_variables with
  | Some k => DbCreateTables.connection_kwargs env = inl (KeyError k)
  | None => exists kw, DbCreateTables.connection_kwargs env = inr kw
  end.
Proof.
  unfold first_absent, bootstrap_variables, DbCreateTables.connection_kwargs,
    os.environ_get. cbn [List.find].
  destruct (env !! "DB_NAME"); cbn [bool_decide decide_rel]; [|reflexivity].
  rewrite bool_decide_eq_false_2 by discriminate.
  destruct (env !! "DB_USER"); [|rewrite bool_decide_eq_true_2 by reflexivity; reflexivity].
  rewrite bool_decide_eq_false_2 by discriminate.
  destruct (env !! "DB_PASSWORD");
    [|rewrite bool_decide_eq_true_2 by reflexivity; reflexivity].
  rewrite bool_decide_eq_false_2 by discriminate.
  destruct (env !! "DB_HOST"); [|rewrite bool_decide_eq_true_2 by reflexivity; reflexivity].
  rewrite bool_decide_eq_false_2 by discriminate.
  destruct (env !! "DB_PORT"); [|rewrite bool_decide_eq_true_2 by reflexivity; reflexivity].
  rewrite bool_decide_eq_false_2 by discriminate.
  eexists. reflexivity.
Qed.

(** X13. When one of the five variables is absent, [main] of the bootstrap
    script returns 1, logs the [KeyError] of the first absent one in the
    order [DB_NAME], [DB_USER], [DB_PASSWORD], [DB_HOST], [DB_PORT], and
    does not try to connect. *)
Theorem bootstrap_main_missing_variable w k :
  first_absent (environ w) bootstrap_variables = Some k ->
  exists w',
    DbCreateTables.main w = (inr 1, w')
    /\ records w' = (records w ++ [bootstrap_error (KeyError k)])%list
    /\ connects w' = connects w /\ session w' = session w /\ server w' = server w.
Proof.
  intros Hk. pose proof (connection_kwargs_first_absent (environ w)) as H.
  rewrite Hk in H.
  unfold DbCreateTables.main, try_except, bind at 1.
  unfold DbCreateTables.get_db_connection, bind at 1, reading. rewrite H.
  unfold bind, logging.error, logging.log, ret.
  eexists. split; [reflexivity|]. repeat split.
Qed.

Lemma connect_accepted {K} (kw : K) w :
  snd (connect_outcome (oracle w) (connects w)) = None ->
  exists w1,
    psycopg2.connect kw w = (inr the_connection, w1)
    /\ in_txn w1 (server w) /\ server w1 = server w /\ oracle w1 = oracle w
    /\ round_trips w1 = round_trips w /\ records w1 = records w.
Proof.
  intros H. unfold psycopg2.connect.
  destruct (connect_outcome (oracle w) (connects w)) as [d out]. simpl in H. subst out.
  eexists. split; [reflexivity|]. repeat split.
Qed.

(** No operation of the scripts replaces the oracle. *)
Lemma create_tables_oracle conn statements w :
  oracle (snd (DbCreateTables.create_tables conn statements w)) = oracle w.
Proof.
  rewrite create_tables_unfold.
  assert (Hcur : forall w0, oracle (snd (psycopg2.cursor conn w0)) = oracle w0
                            /\ (forall e w1, psycopg2.cursor conn w0 = (e, w1) -> w1 = w0)).
  { intros w0. unfold psycopg2.cursor, psycopg2.opened, bind, ret.
    destruct (session w0) as [s|]; [destruct (closed s)|]; simpl; split; auto;
      intros e w1 H; inversion H; reflexivity. }
  assert (Hex : forall qs w0,
             oracle (snd (psycopg2.execute the_cursor qs w0)) = oracle w0).
  { intros qs w0. unfold psycopg2.execute, psycopg2.dropped, psycopg2.opened, bind.
    destruct (session w0) as [s|]; [destruct (closed s)|]; simpl; auto.
    destruct (server_fault (oracle w0) (round_trips w0)).
    { destruct (breaks_link (oracle w0) (round_trips w0)); reflexivity. }
    destruct (aborted s); simpl; auto.
    destruct (Pg.run_all qs (working s) []) as [e|[db res]];
      destruct (autocommit s); reflexivity. }
  assert (Hfe : forall qs w0,
             oracle (snd (for_each qs
                            (fun ddl => let! _ := psycopg2.execute the_cursor [ddl] in
                                        ret tt) w0)) = oracle w0).
  { induction qs as [|q qs IH]; intros w0; [reflexivity|].
    rewrite for_each_cons. unfold bind at 1.
    pose proof (Hex [q] w0) as H1.
    destruct (psycopg2.execute the_cursor [q] w0) as [[e|r] w1]; simpl in *; [exact H1|].
    rewrite IH. exact H1. }
  assert (Hcm : forall w0, oracle (snd (psycopg2.commit conn w0)) = oracle w0).
  { intros w0. unfold psycopg2.commit, psycopg2.dropped, psycopg2.opened, bind.
    destruct (session w0) as [s|]; [destruct (closed s)|]; simpl; auto.
    destruct (begun w0); [|reflexivity].
    destruct (server_fault (oracle w0) (round_trips w0)); simpl; auto.
    destruct (aborted s); reflexivity. }
  destruct (Hcur w) as [Ho Hw].
  destruct (psycopg2.cursor conn w) as [[e|[]] w1] eqn:Ec; simpl in *; [exact Ho|].
  pose proof (Hfe statements w1) as H2.
  destruct (for_each statements _ w1) as [[e|[]] w2]; simpl in *; [congruence|].
  rewrite Hcm. congruence.
Qed.

(** X14. When the five variables are present, the server accepts the
    connection and reports no fault, [main] of the bootstrap script
    returns 0 and the committed database has the three tables: those
    that were missing are created empty, those that existed keep their
    rows and sequences. *)
Theorem bootstrap_main_ensures w :
  first_absent (environ w) bootstrap_variables = None ->
  snd (connect_outcome (oracle w) (connects w)) = None ->
  fault_free w ->
  exists w',
    DbCreateTables.main w = (inr 0, w')
    /\ server w' = ensure_tables (server w)
    /\ in_txn w' (ensure_tables (server w)).
Proof.
  intros Henv Hacc Hf.
  pose proof (connection_kwargs_first_absent (environ w)) as Hkw.
  rewrite Henv in Hkw. destruct Hkw as (kw & Hkw).
  destruct (connect_accepted kw w Hacc) as (w1 & Hc & Hin1 & Hsv1 & Ho1 & _).
  assert (Hf1 : fault_free w1) by (intros n; rewrite Ho1; apply Hf).
  pose proof (create_tables_result the_connection DbCreateTables.DDL_STATEMENTS
                w1 (server w) Hin1 Hf1) as Hct.
  rewrite run_create_tables in Hct. destruct Hct as (w2 & Hrun & Hsv2 & Hin2).
  assert (Ho2 : fault_free (set_records
                  (records w2 ++
                   [mkLog INFO "Tables created successfully (or already existed)." []
                      false]) w2)).
  { intros n. simpl.
    pose proof (create_tables_oracle the_connection DbCreateTables.DDL_STATEMENTS w1)
      as Ho. rewrite Hrun in Ho. simpl in Ho. rewrite Ho. apply Hf1. }
  destruct (commit_ok the_connection
              (set_records
                 (records w2 ++
                  [mkLog INFO "Tables created successfully (or already existed)." []
                     false]) w2)
              (ensure_tables (server w)) Hin2 (Ho2 _))
    as (w3 & Hcm & Hsv3 & Hin3 & _).
  unfold DbCreateTables.main, try_except. unfold bind at 1.
  unfold DbCreateTables.get_db_connection, bind at 1, reading. rewrite Hkw, Hc.
  unfold bind at 1. unfold psycopg2.with_connection. unfold bind at 1. rewrite Hrun.
  unfold bind at 1. unfold logging.info, logging.log. rewrite Hcm. unfold ret.
  exists w3. auto.
Qed.

(** ** The bootstrap under any server behaviour *)

Lemma ensure_tables_present db : has_tables db -> ensure_tables db = db.
Proof.
  destruct db as [[u|] [s|] [t|]]; intros (Hu & Hs & Ht); try reflexivity;
    simpl in *; congruence.
Qed.

Lemma in_txn_open w db : in_txn w db -> txn_open w.
Proof. intros H. eexists. split; [exact H|]. auto. Qed.

(** The paths through [main]. *)
Lemma bootstrap_main_paths w :
  let w' := snd (DbCreateTables.main w) in
  (server w' = server w \/ server w' = ensure_tables (server w))
  /\ (forall conn w1, DbCreateTables.get_db_connection w = (inr conn, w1) ->
      txn_open w' \/ link_lost w1 w').
Proof.
  cbv zeta. destruct (DbCreateTables.get_db_connection w) as [[e|conn] w1] eqn:Eget.
  - destruct (get_db_connection_fails w e w1 Eget) as [Hsv _].
    unfold DbCreateTables.main, try_except. unfold bind at 1. rewrite Eget.
    unfold bind, logging.error, logging.log, ret. simpl.
    split; [left; exact Hsv | discriminate].
  - destruct (get_db_connection_opens w conn w1 Eget) as (Hin & Hsv & Ho & Hb & Hr).
    destruct (create_tables_faults conn w1 (server w) Hin Hsv)
      as (r & w2 & Hct & Ho2 & _ & Hcase).
    destruct (first_fault (oracle w1) (round_trips w1) 4) as [i|].
    + destruct Hcase as ((e & ->) & Hsv2 & Hq2 & Hr2 & _ & Hop2).
      destruct (bootstrap_aborts w conn w1 e w2 Eget Hct Hq2)
        as (w' & Hm & Hsv' & Hr' & Hop').
      rewrite Hm. simpl. split; [left; congruence|].
      intros c wc Hc. inversion Hc; subst wc.
      destruct Hop2 as [Hop2|Hlost].
      * destruct (Hop' Hop2) as [H|H]; [left; exact H|right].
        apply (link_lost_earlier w1 w2 w'); [exact Ho2 | lia | exact H].
      * right. apply (link_lost_later w1 w2 w'); [exact Hlost | lia].
    + destruct Hcase as (-> & Hsv2 & Hin2 & Hb2 & Hr2).
      destruct (bootstrap_returns w conn w1 w2 _ Eget Hct Hin2 Hsv2 Hb2)
        as (w' & Hm & Hsv' & Hin' & _).
      rewrite Hm. simpl. split; [right; exact Hsv'|].
      intros c wc Hc. left. exact (in_txn_open _ _ Hin').
Qed.

(** X15. Whatever the environment and whatever the server does, after
    [main] of the bootstrap script the committed database is either the
    one before the run or that one with every missing table created:
    never some of the missing tables only. *)
Theorem bootstrap_main_none_or_all w :
  let w' := snd (DbCreateTables.main w) in
  server w' = server w \/ server w' = ensure_tables (server w).
Proof. apply bootstrap_main_paths. Qed.

(** X16. On a database that already has the three tables, [main] of the
    bootstrap script changes nothing, whether it succeeds or fails. *)
Theorem bootstrap_main_rerun w :
  has_tables (server w) -> server (snd (DbCreateTables.main w)) = server w.
Proof.
  intros H. destruct (bootstrap_main_paths w) as [[Hs|Hs] _]; [exact Hs|].
  rewrite Hs. apply ensure_tables_present, H.
Qed.


(** ** The further properties at work *)

(** X1 at work: a variable the resolver does not read. *)
Lemma parse_db_env_reads_six_witness :
  Seed._parse_db_env any_host env_url =
  Seed._parse_db_env any_host (<["HOME" := "/root"]> env_url).
Proof.
  apply (parse_db_env_reads_six any_host env_url (<["HOME" := "/root"]> env_url)).
  intros k Hk. rewrite lookup_insert_ne; [reflexivity|].
  intros <-. apply list_elem_of_In in Hk. simpl in Hk. intuition discriminate.
Defined.

(** X2 at work. *)
Lemma parse_db_env_url_record_witness :
  let cfg := Seed.mkCfg (Some "taskdb") (Some "u") (Some "p") (Some "localhost") 5555 in
  Seed._parse_db_env any_host env_url = inr cfg
  /\ 1 <= Seed.port cfg <= 65535
  /\ exists d, Seed.dbname cfg = Some d /\ PyStr.startswith "/" d = false.
Proof.
  intros cfg. split; [vm_compute; reflexivity|].
  apply (parse_db_env_url_record any_host env_url
           "postgresql://u:p@localhost:5555/taskdb" cfg).
  - reflexivity.
  - discriminate.
  - vm_compute; reflexivity.
Defined.



(** X7 at work: one address, two users asked for. *)
Lemma seed_users_generator_exhausted_witness :
  exists w',
    Seed.seed_users the_connection 2 (in_session bootstrapped stuck)
    = (inl gave_up, w')
    /\ fake_calls w' = (fake_calls (in_session bootstrapped stuck) + 1003)%nat
    /\ unique_seen w' = {[ "a@example.com" ]}
    /\ session w' = session (in_session bootstrapped stuck)
    /\ round_trips w' = round_trips (in_session bootstrapped stuck)
    /\ records w' = records (in_session bootstrapped stuck).
Proof.
  apply (seed_users_generator_exhausted the_connection 2
           (in_session bootstrapped stuck) "a@example.com").
  - intros k _; reflexivity.
  - reflexivity.
  - lia.
Defined.

(** X8 at work: [SEED_USERS=0]. *)
Lemma seed_users_nothing_to_do_witness :
  exists w',
    Seed.seed_users the_connection 0 (in_session bootstrapped steady) = (inr tt, w')
    /\ session w' = session (in_session bootstrapped steady)
    /\ server w' = server (in_session bootstrapped steady)
    /\ round_trips w' = round_trips (in_session bootstrapped steady)
    /\ fake_calls w' = fake_calls (in_session bootstrapped steady)
    /\ unique_seen w' = ∅
    /\ records w' =
       (records (in_session bootstrapped steady)
        ++ [mkLog INFO "Users inserted/skipped: %d" [ArgInt 0] false])%list.
Proof.
  apply (seed_users_nothing_to_do the_connection 0 (in_session bootstrapped steady)).
  - eexists. split; [reflexivity|]. split; reflexivity.
  - lia.
Defined.

(** X9 at work. *)
Lemma seeding_steps_never_commit_witness :
  let w := in_session bootstrapped steady in
  (Pg.data (server (snd (Seed.seed_statuses the_connection w))) = Pg.data (server w)
   /\ (txn_open (snd (Seed.seed_statuses the_connection w))
       \/ link_lost w (snd (Seed.seed_statuses the_connection w))))
  /\ (Pg.data (server (snd (Seed.seed_users the_connection 10 w))) = Pg.data (server w)
      /\ (txn_open (snd (Seed.seed_users the_connection 10 w))
          \/ link_lost w (snd (Seed.seed_users the_connection 10 w))))
  /\ (Pg.data (server (snd (Seed.seed_tasks the_connection 30 w))) = Pg.data (server w)
      /\ (txn_open (snd (Seed.seed_tasks the_connection 30 w))
          \/ link_lost w (snd (Seed.seed_tasks the_connection 30 w)))).
Proof.
  intros w. apply (seeding_steps_never_commit the_connection 10 30 w).
  eexists. split; [reflexivity|]. split; reflexivity.
Defined.

(** X10 at work: two of the four variables are missing. *)
Lemma seed_main_misconfigured_witness :
  let w := fresh_world env_partial bootstrapped steady in
  let e := EnvironmentError
             "Missing required env vars: DB_USER, DB_PASSWORD (or provide DATABASE_URL)" in
  exists w',
    Seed.main any_host 10 30 w = (inr tt, w')
    /\ records w' = (records w ++ failure_records e)%list
    /\ connects w' = connects w /\ clock w' = clock w
    /\ session w' = session w /\ server w' = server w.
Proof.
  intros w e. apply (seed_main_misconfigured any_host 10 30 w e).
  vm_compute; reflexivity.
Defined.


(** X12 at work: the three statements of the script on a server without
    tables. *)
Lemma create_tables_runs_in_order_witness :
  exists w',
    DbCreateTables.create_tables the_connection DbCreateTables.DDL_STATEMENTS
      (in_session no_database steady) = (inr tt, w')
    /\ server w' = bootstrapped /\ in_txn w' bootstrapped.
Proof.
  exact (create_tables_runs_in_order the_connection DbCreateTables.DDL_STATEMENTS
           (in_session no_database steady) no_database eq_refl (fun _ => eq_refl)).
Defined.

(** X13 at work: [DB_PORT] is not set. *)
Lemma bootstrap_main_missing_variable_witness :
  let w := fresh_world env_discrete no_database steady in
  exists w',
    DbCreateTables.main w = (inr 1, w')
    /\ records w' = (records w ++ [bootstrap_error (KeyError "DB_PORT")])%list
    /\ connects w' = connects w /\ session w' = session w /\ server w' = server w.
Proof.
  intros w. apply (bootstrap_main_missing_variable w "DB_PORT").
  vm_compute; reflexivity.
Defined.

(** X14 at work: a server that holds the users table only. *)
Lemma bootstrap_main_ensures_witness :
  let w := fresh_world env_bootstrap
             (Pg.mkDatabase (Some one_user) None None) steady in
  exists w',
    DbCreateTables.main w = (inr 0, w')
    /\ server w' = Pg.mkDatabase (Some one_user) (Some no_statuses) (Some no_tasks)
    /\ in_txn w' (Pg.mkDatabase (Some one_user) (Some no_statuses) (Some no_tasks)).
Proof.
  intros w. apply (bootstrap_main_ensures w).
  - vm_compute; reflexivity.
  - reflexivity.
  - intros n; reflexivity.
Defined.

(** X16 at work: a second run, during which the server drops a round
    trip. *)
Lemma bootstrap_main_rerun_witness :
  let w := fresh_world env_bootstrap
             (Pg.mkDatabase (Some one_user) (Some three_statuses) (Some no_tasks))
             failing_third in
  server (snd (DbCreateTables.main w)) = server w.
Proof.
  intros w. apply (bootstrap_main_rerun w).
  split; [|split]; discriminate.
Defined.

